(** * setup_julia.py: a shallow embedding and its properties

    The script [.build/setup-scripts/setup_julia.py] picks the latest stable
    Julia build for the current CPU from a JSON manifest, downloads it with
    curl, unpacks it into a conda environment, renames the unpacked
    directory, links the binary into two environments and writes a one-line
    startup file.

    The Python functions are embedded as programs of a small state and
    exception monad over a [world]: the process environment, the machine
    name, the replies of the network, and the file system.  The operating
    system and the library calls the script makes ([os.path.exists],
    [os.remove], [os.symlink], [os.makedirs], [shutil.unpack_archive],
    [open], [mv], [curl]) are modelled by their documented behaviour on a
    finite map from path strings to nodes. *)

From Stdlib Require Import String Ascii List Bool Arith Lia.
From stdpp Require Import base option list strings gmap fin_maps.

Local Open Scope string_scope.

(** ** Exceptions and outcomes *)

(** The Python exceptions the script can raise.  None of them is ever caught:
    the monad below has [raise] and no handler. *)
Inductive exn : Type :=
  | KeyError (key : string)
  | ValueError
  | IndexError
  | RequestException (reason : string)
  | CalledProcessError (cmd : string)
  | ReadError (path : string)
  | FileNotFoundError (path : string)
  | FileExistsError (path : string)
  | IsADirectoryError (path : string)
  | NotADirectoryError (path : string)
  | TooManyLinks (path : string).

Inductive outcome (A : Type) : Type :=
  | Returned (a : A)
  | Raised (e : exn).
Arguments Returned {A} a.
Arguments Raised {A} e.

(** ** The manifest, as [requests.get(...).json()] returns it

    The known shape: a dict from version keys to entries with a ["stable"]
    flag and a ["files"] list; every file record carries ["triplet"],
    ["url"] and ["version"]. *)
Record file_info : Type := FileInfo {
  triplet : string;
  url : string;
  version : string
}.

Record version_info : Type := VersionInfo {
  stable : bool;
  files : list file_info
}.

(** ** File system nodes *)

(** What an archive member unpacks to. *)
Inductive member : Type :=
  | MDir
  | MFile (bytes : string)
  | MLink (target : string).

(** The content of a regular file: plain bytes, or a tar archive with its
    members in archive order (member names are relative paths). *)
Inductive data : Type :=
  | Text (s : string)
  | Tarball (members : list (string * member)).

Inductive node : Type :=
  | File (d : data)
  | Dir
  | Symlink (target : string).

(** ** The world the script runs in *)
Record world : Type := World {
  environ : gmap string string;          (* os.environ *)
  machine : string;                      (* platform.machine() *)
  versions_json : outcome (gmap string version_info);
                                         (* requests.get(URL).json() *)
  remote : string -> option data;        (* what curl fetches from a URL;
                                            None: curl exits non-zero *)
  fs : gmap string node                  (* path string |-> node *)
}.

Definition set_fs (f : gmap string node) (w : world) : world :=
  {| environ := environ w; machine := machine w;
     versions_json := versions_json w; remote := remote w; fs := f |}.

(** ** The monad: state passing with exceptions *)
Definition io (A : Type) : Type := world -> outcome A * world.

Definition ret {A} (a : A) : io A := fun w => (Returned a, w).
Definition raise {A} (e : exn) : io A := fun w => (Raised e, w).
Definition bind {A B} (m : io A) (k : A -> io B) : io B :=
  fun w => match m w with
           | (Returned a, w') => k a w'
           | (Raised e, w') => (Raised e, w')
           end.
Definition lift {A} (o : outcome A) : io A := fun w => (o, w).

Declare Scope io_scope.
Delimit Scope io_scope with io.
Notation "x <- m ;; k" := (bind m (fun x => k))
  (at level 100, m at next level, right associativity) : io_scope.
Notation "m ;;; k" := (bind m (fun _ => k))
  (at level 100, right associativity) : io_scope.
Local Open Scope io_scope.

(** ** [unify_aarch64] *)

(** The dict literal of lines 22-26. *)
Definition arch_table : gmap string string :=
  <["aarch64" := "aarch64"]> (<["arm64" := "aarch64"]> (<["x86_64" := "x86_64"]> ∅)).

(** Subscripting a dict: a missing key raises [KeyError]. *)
Definition getitem {V} (m : gmap string V) (k : string) : outcome V :=
  match m !! k with
  | Some v => Returned v
  | None => Raised (KeyError k)
  end.

Definition unify_aarch64 (platform : string) : outcome string :=
  getitem arch_table platform.

(** ** [get_latest_julia_url] *)

(** Python's [max] over an iterable of strings: the first item is the
    candidate, a later item replaces it when it compares greater.  Python
    compares [str] by code point, which on UTF-8 bytes is [String.compare].
    An empty iterable raises [ValueError]. *)
Definition py_max (l : list string) : outcome string :=
  match l with
  | [] => Raised ValueError
  | x :: r => Returned (fold_left (fun acc y => if String.ltb acc y then y else acc) r x)
  end.

(** [{k: v for k, v in versions.items() if v["stable"]}] *)
Definition stable_only (versions : gmap string version_info) : gmap string version_info :=
  filter (fun kv => stable (snd kv) = true) versions.

(** Iterating a dict yields its keys. *)
Definition keys (m : gmap string version_info) : list string :=
  (map_to_list m).*1.

(** [[vf for vf in latest_version_files if vf["triplet"] == triplet]] *)
Definition matching (t : string) (fl : list file_info) : list file_info :=
  List.filter (fun vf => String.eqb (triplet vf) t) fl.

(** [requests.get(URL).json()] and [platform.machine()] read the world. *)
Definition requests_get_json : io (gmap string version_info) :=
  fun w => (versions_json w, w).
Definition platform_machine : io string :=
  fun w => (Returned (machine w), w).

(** Taking element 0 of a list. *)
Definition first {A} (l : list A) : outcome A :=
  match l with
  | [] => Raised IndexError
  | x :: _ => Returned x
  end.

Definition get_latest_julia_url : io (string * string) :=
  versions <- requests_get_json ;;
  let stable_versions := stable_only versions in
  latest <- lift (py_max (keys stable_versions)) ;;
  latest_version <- lift (getitem stable_versions latest) ;;
  let latest_version_files := files latest_version in
  mach <- platform_machine ;;
  arch <- lift (unify_aarch64 mach) ;;
  let trip := arch +:+ "-linux-gnu" in
  file_info <- lift (first (matching trip latest_version_files)) ;;
  ret (url file_info, version file_info).

(** ** Path strings

    A path is the string the script builds for it, and the file system is
    keyed by these strings as they stand: two spellings of one location are
    two keys.  Symbolic links are followed at the last component of a path,
    at most [SYMLOOP_MAX] of them in a row; a link's target is read as a
    path of the same kind, and a directory on the way to a file is taken not
    to be a link.  The parent directory of a path that is written is taken
    to exist: the script creates each one with [os.makedirs] just before,
    and [/tmp] exists in the image. *)

Definition slash : ascii := "/"%char.

Fixpoint ends_with_slash (s : string) : bool :=
  match s with
  | EmptyString => false
  | String c EmptyString => Ascii.eqb c slash
  | String _ s' => ends_with_slash s'
  end.

(** [posixpath.join] of two components: an absolute second component
    replaces the first, otherwise one separator is put between them unless
    the first is empty or already ends with one. *)
Definition os_path_join (a b : string) : string :=
  if String.prefix "/" b then b
  else if String.eqb a EmptyString || ends_with_slash a then a +:+ b
  else a +:+ "/" +:+ b.

(** The directories above a path: every non-empty prefix that stops right
    before a separator and does not itself end with one. *)
Fixpoint ancestors_from (pre : string) (at_sep : bool) (s : string) : list string :=
  match s with
  | EmptyString => []
  | String c s' =>
    (if Ascii.eqb c slash && negb at_sep then [pre] else [])
      ++ ancestors_from (pre +:+ String c EmptyString) (Ascii.eqb c slash) s'
  end.
Definition ancestors (p : string) : list string := ancestors_from EmptyString true p.

(** The last component of a path, trailing separators ignored (what [mv]
    appends to a destination directory). *)
Fixpoint basename_from (cur last : string) (s : string) : string :=
  match s with
  | EmptyString => if String.eqb cur EmptyString then last else cur
  | String c s' =>
    if Ascii.eqb c slash
    then basename_from EmptyString (if String.eqb cur EmptyString then last else cur) s'
    else basename_from (cur +:+ String c EmptyString) last s'
  end.
Definition basename (p : string) : string := basename_from EmptyString EmptyString p.

Fixpoint string_drop (n : nat) (s : string) : string :=
  match n, s with
  | O, _ => s
  | S n', String _ s' => string_drop n' s'
  | S _, EmptyString => EmptyString
  end.

(** [k] names [d] itself or something below it. *)
Definition at_or_under (d k : string) : bool :=
  String.eqb k d || String.prefix (d +:+ "/") k.

(** ** File system operations *)

Definition SYMLOOP_MAX : nat := 40.

(** Follow the links at [p] until a path that is not a link; [None] after
    too many links. *)
Fixpoint resolve (n : nat) (f : gmap string node) (p : string) : option string :=
  match f !! p with
  | Some (Symlink t) =>
    match n with
    | O => None
    | S n' => resolve n' f t
    end
  | _ => Some p
  end.

(** [stat]: the node a path leads to, links followed. *)
Definition stat (f : gmap string node) (p : string) : option node :=
  match resolve SYMLOOP_MAX f p with
  | Some r => f !! r
  | None => None
  end.

Definition exists_fs (f : gmap string node) (p : string) : bool :=
  match stat f p with
  | Some _ => true
  | None => false
  end.

Definition isdir (f : gmap string node) (p : string) : bool :=
  match stat f p with
  | Some Dir => true
  | _ => false
  end.

(** [os.path.exists]: false for a missing path and for a dangling link. *)
Definition os_path_exists (p : string) : io bool :=
  fun w => (Returned (exists_fs (fs w) p), w).

(** Run a file system update, keeping the world on an exception. *)
Definition update_fs (op : gmap string node -> outcome (gmap string node)) : io unit :=
  fun w => match op (fs w) with
           | Returned f' => (Returned tt, set_fs f' w)
           | Raised e => (Raised e, w)
           end.

(** [os.remove]: unlinks a file or a link, never follows it. *)
Definition remove_fs (p : string) (f : gmap string node) : outcome (gmap string node) :=
  match f !! p with
  | None => Raised (FileNotFoundError p)
  | Some Dir => Raised (IsADirectoryError p)
  | Some _ => Returned (delete p f)
  end.
Definition os_remove (p : string) : io unit := update_fs (remove_fs p).

(** [os.symlink(src, dst)]: fails when anything, even a dangling link, is
    at [dst]. *)
Definition symlink_fs (src dst : string) (f : gmap string node) : outcome (gmap string node) :=
  match f !! dst with
  | Some _ => Raised (FileExistsError dst)
  | None => Returned (<[dst := Symlink src]> f)
  end.
Definition os_symlink (src dst : string) : io unit := update_fs (symlink_fs src dst).

(** One directory on the way down: kept when it is a directory, created
    when nothing is there. *)
Definition mkdir_missing (q : string) (f : gmap string node) : outcome (gmap string node) :=
  match stat f q with
  | Some Dir => Returned f
  | Some _ => Raised (NotADirectoryError q)
  | None =>
    match f !! q with
    | None => Returned (<[q := Dir]> f)
    | Some _ => Raised (FileNotFoundError q)
    end
  end.

Fixpoint mkdirs (qs : list string) (f : gmap string node) : outcome (gmap string node) :=
  match qs with
  | [] => Returned f
  | q :: r =>
    match mkdir_missing q f with
    | Returned f' => mkdirs r f'
    | Raised e => Raised e
    end
  end.

(** [os.makedirs(p, exist_ok=True)] *)
Definition makedirs_fs (p : string) (f : gmap string node) : outcome (gmap string node) :=
  match mkdirs (ancestors p) f with
  | Raised e => Raised e
  | Returned f' =>
    if isdir f' p then Returned f'
    else match f' !! p with
         | None => Returned (<[p := Dir]> f')
         | Some _ => Raised (FileExistsError p)
         end
  end.
Definition os_makedirs (p : string) : io unit := update_fs (makedirs_fs p).

(** Opening a path for writing and writing [d]: links are followed, the
    file is created or truncated. *)
Definition write_fs (p : string) (d : data) (f : gmap string node) : outcome (gmap string node) :=
  match resolve SYMLOOP_MAX f p with
  | None => Raised (TooManyLinks p)
  | Some r =>
    match f !! r with
    | Some Dir => Raised (IsADirectoryError p)
    | _ => Returned (<[r := File d]> f)
    end
  end.
Definition write_text (p : string) (s : string) : io unit := update_fs (write_fs p (Text s)).

(** Reading a file back, links followed. *)
Definition read_fs (f : gmap string node) (p : string) : option data :=
  match stat f p with
  | Some (File d) => Some d
  | _ => None
  end.

(** *** Archives *)

(** Extracting one member below [dir]: the directories above the target are
    created when missing; a directory member is made unless a directory is
    there already; a file member is written; a link member replaces what is
    at its path. *)
Definition extract_member (dir : string) (nm : string * member)
    (f : gmap string node) : outcome (gmap string node) :=
  let target := os_path_join dir (fst nm) in
  match mkdirs (ancestors target) f with
  | Raised e => Raised e
  | Returned f1 =>
    match snd nm with
    | MDir =>
      if isdir f1 target then Returned f1
      else match f1 !! target with
           | None => Returned (<[target := Dir]> f1)
           | Some _ => Raised (FileExistsError target)
           end
    | MFile b => write_fs target (Text b) f1
    | MLink t =>
      match f1 !! target with
      | Some Dir => Raised (IsADirectoryError target)
      | _ => Returned (<[target := Symlink t]> f1)
      end
    end
  end.

Fixpoint extract_all (dir : string) (ms : list (string * member))
    (f : gmap string node) : outcome (gmap string node) :=
  match ms with
  | [] => Returned f
  | nm :: r =>
    match extract_member dir nm f with
    | Returned f' => extract_all dir r f'
    | Raised e => Raised e
    end
  end.

(** [shutil.unpack_archive(tar, dir, "gztar")]: a missing archive and a file
    that is no tar archive raise; the members are extracted in order. *)
Definition unpack_fs (tar dir : string) (f : gmap string node) : outcome (gmap string node) :=
  match resolve SYMLOOP_MAX f tar with
  | None => Raised (TooManyLinks tar)
  | Some r =>
    match f !! r with
    | Some (File (Tarball ms)) => extract_all dir ms f
    | Some (File (Text _)) => Raised (ReadError tar)
    | Some Dir => Raised (IsADirectoryError tar)
    | _ => Raised (FileNotFoundError tar)
    end
  end.
Definition shutil_unpack_archive (tar dir : string) : io unit :=
  update_fs (unpack_fs tar dir).

(** *** The external commands *)

Definition has_children (f : gmap string node) (d : string) : bool :=
  existsb (fun k => String.prefix (d +:+ "/") k) (map_to_list f).*1.

(** [rename(2)] of [src] to [dest]: the node at [src] and everything below it
    is re-keyed below [dest]; what was at [dest] is replaced. *)
Definition rekey (src dest : string) (kv : string * node) : string * node :=
  (dest +:+ string_drop (String.length src) (fst kv), snd kv).

Definition rename_fs (src dest : string) (f : gmap string node) : gmap string node :=
  filter (fun kv => at_or_under src (fst kv) = false ∧ at_or_under dest (fst kv) = false) f
  ∪ list_to_map (rekey src dest <$>
       map_to_list (filter (fun kv => at_or_under src (fst kv) = true) f)).

(** [mv src dst], as [subprocess.check_call] runs it: a non-zero exit
    raises [CalledProcessError].  A destination that is a directory receives
    the source under its own name; a directory is never moved onto a
    non-directory, a non-empty directory or itself. *)
Definition mv_dest (src dst : string) (f : gmap string node) : string :=
  if isdir f dst then os_path_join dst (basename src) else dst.

Definition mv_fs (src dst : string) (f : gmap string node) : outcome (gmap string node) :=
  match f !! src with
  | None => Raised (CalledProcessError "mv")
  | Some n =>
    let dest := mv_dest src dst f in
    if at_or_under src dest then Raised (CalledProcessError "mv")
    else
      match f !! dest, n with
      | None, _ => Returned (rename_fs src dest f)
      | Some Dir, Dir =>
        if has_children f dest then Raised (CalledProcessError "mv")
        else Returned (rename_fs src dest f)
      | Some Dir, _ => Raised (CalledProcessError "mv")
      | Some _, Dir => Raised (CalledProcessError "mv")
      | Some _, _ => Returned (rename_fs src dest f)
      end
  end.
Definition mv (src dst : string) : io unit := update_fs (mv_fs src dst).

(** [curl --location --output out url]: the body the network serves for
    [url] is written to [out]; a transfer or write failure is a non-zero
    exit and leaves the file system as it was.  Without [--fail], an error
    page served by the host is a successful transfer. *)
Definition curl (url out : string) : io unit :=
  fun w =>
    match remote w url with
    | None => (Raised (CalledProcessError "curl"), w)
    | Some d =>
      match write_fs out d (fs w) with
      | Returned f' => (Returned tt, set_fs f' w)
      | Raised _ => (Raised (CalledProcessError "curl"), w)
      end
    end.

(** [os.environ[name]] *)
Definition os_environ (name : string) : io string :=
  fun w => (getitem (environ w) name, w).

(** ** [download_julia] *)

Definition tmp_julia : string := "/tmp/julia.tar.gz".

(** Lines 50-53; the unpacking and unlinking of lines 54-55 are commented
    out in the source. *)
Definition download_julia (julia_url : string) : io unit :=
  let tmp_file := tmp_julia in
  curl julia_url tmp_file.

(** ** [prepare_julia] *)

Definition dquote : string := String "034"%char EmptyString.
Definition newline : string := String "010"%char EmptyString.

(** The f-string of line 143. *)
Definition push_directive (lib : string) : string :=
  "push!(Libdl.DL_LOAD_PATH, " +:+ dquote +:+ lib +:+ dquote +:+ ")" +:+ newline.

(** Lines 95-101: unpack the archive, unlink it, rename the unpacked tree. *)
Definition unpack_julia (julia_version conda_env_path julia_env_path : string) : io unit :=
  let julia_tar_path := tmp_julia in
  shutil_unpack_archive julia_tar_path conda_env_path ;;;
  os_remove julia_tar_path ;;;
  mv (os_path_join conda_env_path ("julia-" +:+ julia_version)) julia_env_path.

(** Lines 112-127: the two links to the Julia binary. *)
Definition link_julia (conda_env_path julia_env_path jupyter_env_name : string) : io unit :=
  let julia_bin_path := os_path_join (os_path_join julia_env_path "bin") "julia" in
  os_makedirs (os_path_join conda_env_path "bin") ;;;
  let symlink_path := os_path_join (os_path_join conda_env_path "bin") "julia" in
  there <- os_path_exists symlink_path ;;
  (if there then os_remove symlink_path else ret tt) ;;;
  os_symlink julia_bin_path symlink_path ;;;
  conda_dir <- os_environ "CONDA_DIR" ;;
  let jupyter_env_bin_path :=
    os_path_join (os_path_join (os_path_join conda_dir "envs") jupyter_env_name) "bin" in
  os_makedirs jupyter_env_bin_path ;;;
  let jupyter_symlink_path := os_path_join jupyter_env_bin_path "julia" in
  there <- os_path_exists jupyter_symlink_path ;;
  (if there then os_remove jupyter_symlink_path else ret tt) ;;;
  os_symlink julia_bin_path jupyter_symlink_path.

(** Lines 138-143: the startup file. *)
Definition write_startup (conda_env_path julia_env_path : string) : io unit :=
  let julia_startup_dir := os_path_join (os_path_join julia_env_path "etc") "julia" in
  os_makedirs julia_startup_dir ;;;
  let julia_startup_file := os_path_join julia_startup_dir "juliarc.jl" in
  write_text julia_startup_file (push_directive (os_path_join conda_env_path "lib")).

Definition prepare_julia (julia_version conda_env_name jupyter_env_name : string) : io unit :=
  conda_dir <- os_environ "CONDA_DIR" ;;
  let conda_env_path := os_path_join (os_path_join conda_dir "envs") conda_env_name in
  let julia_env_path := os_path_join conda_env_path "julia" in
  unpack_julia julia_version conda_env_path julia_env_path ;;;
  link_julia conda_env_path julia_env_path jupyter_env_name ;;;
  julia_pkg_dir <- os_environ "JULIA_PKGDIR" ;;
  os_makedirs julia_pkg_dir ;;;
  write_startup conda_env_path julia_env_path.

(** ** The script body (lines 145-148) *)
Definition main : io unit :=
  r <- get_latest_julia_url ;;
  let julia_url := fst r in
  let julia_version := snd r in
  download_julia julia_url ;;;
  prepare_julia julia_version "julia-env" "jupyter".

(** Lines 40-42 on a given file list: what [get_latest_julia_url] returns
    once the latest stable entry is known. *)
Definition pick_file (mach : string) (fl : list file_info) : outcome (string * string) :=
  match unify_aarch64 mach with
  | Raised e => Raised e
  | Returned arch =>
    match first (matching (arch +:+ "-linux-gnu") fl) with
    | Raised e => Raised e
    | Returned file_info => Returned (url file_info, version file_info)
    end
  end.

(** [latest] is a stable key of the manifest and no stable key is greater. *)
Definition greatest_stable (versions : gmap string version_info) (latest : string) : Prop :=
  (∃ v, versions !! latest = Some v ∧ stable v = true) ∧
  ∀ k vk, versions !! k = Some vk → stable vk = true → String.le k latest.

(** How often a character occurs in a string; with the line feed, the
    number of lines of a text that ends with one. *)
Fixpoint count_char (c : ascii) (s : string) : nat :=
  match s with
  | EmptyString => 0
  | String c' s' => (if Ascii.eqb c' c then 1 else 0) + count_char c s'
  end.

(** Lines 115-117 (and 124-127) on the file system: on success the path
    holds the new link and nothing else has changed. *)
Definition relink_fs (t p : string) (f : gmap string node) : outcome (gmap string node) :=
  match (if exists_fs f p then remove_fs p f else Returned f) with
  | Returned f1 => symlink_fs t p f1
  | Raised e => Raised e
  end.

(** ** The failures the script can meet

    [script_failure w e w'] : started in [w], the script reaches a point,
    with the file system as in [w'], at which the operation named by the
    constructor raises [e]. *)
Inductive script_failure (w : world) : exn → world → Prop :=
  | fail_network e :
      (* requests.get(...).json() raises *)
      versions_json w = Raised e →
      script_failure w e w
  | fail_no_platform_entry versions latest v arch :
      (* the list comprehension of line 41 is empty *)
      versions_json w = Returned versions →
      greatest_stable versions latest →
      versions !! latest = Some v →
      unify_aarch64 (machine w) = Returned arch →
      matching (arch +:+ "-linux-gnu") (files v) = [] →
      script_failure w IndexError w
  | fail_download u v :
      (* curl exits non-zero *)
      get_latest_julia_url w = (Returned (u, v), w) →
      remote w u = None →
      script_failure w (CalledProcessError "curl") w
  | fail_environment u v w1 :
      (* os.environ["CONDA_DIR"] at line 88 *)
      get_latest_julia_url w = (Returned (u, v), w) →
      download_julia u w = (Returned tt, w1) →
      environ w !! "CONDA_DIR" = None →
      script_failure w (KeyError "CONDA_DIR") w1
  | fail_extraction u v w1 cd e :
      (* shutil.unpack_archive at line 96 *)
      get_latest_julia_url w = (Returned (u, v), w) →
      download_julia u w = (Returned tt, w1) →
      environ w !! "CONDA_DIR" = Some cd →
      unpack_fs tmp_julia (os_path_join (os_path_join cd "envs") "julia-env") (fs w1)
      = Raised e →
      script_failure w e w1
  | fail_first_link u v w1 cd w2 fa e :
      (* os.remove or os.symlink at lines 116-117 *)
      get_latest_julia_url w = (Returned (u, v), w) →
      download_julia u w = (Returned tt, w1) →
      environ w !! "CONDA_DIR" = Some cd →
      let conda_env_path := os_path_join (os_path_join cd "envs") "julia-env" in
      let julia_env_path := os_path_join conda_env_path "julia" in
      unpack_julia v conda_env_path julia_env_path w1 = (Returned tt, w2) →
      makedirs_fs (os_path_join conda_env_path "bin") (fs w2) = Returned fa →
      relink_fs (os_path_join (os_path_join julia_env_path "bin") "julia")
        (os_path_join (os_path_join conda_env_path "bin") "julia") fa = Raised e →
      script_failure w e (set_fs fa w2)
  | fail_second_link u v w1 cd w2 fa fb fc e :
      (* os.remove or os.symlink at lines 125-127 *)
      get_latest_julia_url w = (Returned (u, v), w) →
      download_julia u w = (Returned tt, w1) →
      environ w !! "CONDA_DIR" = Some cd →
      let conda_env_path := os_path_join (os_path_join cd "envs") "julia-env" in
      let julia_env_path := os_path_join conda_env_path "julia" in
      let julia_bin_path := os_path_join (os_path_join julia_env_path "bin") "julia" in
      let jupyter_env_bin_path :=
        os_path_join (os_path_join (os_path_join cd "envs") "jupyter") "bin" in
      unpack_julia v conda_env_path julia_env_path w1 = (Returned tt, w2) →
      makedirs_fs (os_path_join conda_env_path "bin") (fs w2) = Returned fa →
      relink_fs julia_bin_path
        (os_path_join (os_path_join conda_env_path "bin") "julia") fa = Returned fb →
      makedirs_fs jupyter_env_bin_path fb = Returned fc →
      relink_fs julia_bin_path (os_path_join jupyter_env_bin_path "julia") fc = Raised e →
      script_failure w e (set_fs fc w2)
  | fail_package_directory u v w1 cd w2 w3 :
      (* os.environ["JULIA_PKGDIR"] at line 131 *)
      get_latest_julia_url w = (Returned (u, v), w) →
      download_julia u w = (Returned tt, w1) →
      environ w !! "CONDA_DIR" = Some cd →
      environ w !! "JULIA_PKGDIR" = None →
      let conda_env_path := os_path_join (os_path_join cd "envs") "julia-env" in
      let julia_env_path := os_path_join conda_env_path "julia" in
      unpack_julia v conda_env_path julia_env_path w1 = (Returned tt, w2) →
      link_julia conda_env_path julia_env_path "jupyter" w2 = (Returned tt, w3) →
      script_failure w (KeyError "JULIA_PKGDIR") w3.

(** [sub] occurs somewhere in [s]. *)
Fixpoint contains (sub s : string) : bool :=
  String.prefix sub s ||
  match s with
  | EmptyString => false
  | String _ s' => contains sub s'
  end.

(** Some non-empty end of [a] starts [y]. *)
Fixpoint overlap (a y : string) : bool :=
  match a with
  | EmptyString => false
  | String _ a' => String.prefix a y || overlap a' y
  end.

(** The rest of a path at or below a directory: nothing, or a separator and
    more. *)
Definition below (s : string) : Prop :=
  s = EmptyString ∨ String.prefix "/" s = true.

(** The separator [os.path.join] puts after its first component. *)
Definition sep (a : string) : string :=
  if String.eqb a EmptyString || ends_with_slash a then EmptyString else "/".

(** A program that leaves everything but the file system as it was. *)
Definition only_fs {A} (m : io A) : Prop :=
  ∀ w, snd (m w) = set_fs (fs (snd (m w))) w.

(** [f'] is [f] with directories added where nothing was. *)
Definition adds_dirs (f f' : gmap string node) : Prop :=
  ∀ q, f' !! q = f !! q ∨ (f !! q = None ∧ f' !! q = Some Dir).

(** The entry [n] at [q] is still there, or a later step of the run has put
    a link to the binary or the startup file in its place. *)
Definition held (q : string) (n : node) (jbp directive : string)
    (f : gmap string node) : Prop :=
  f !! q = Some n ∨ f !! q = Some (Symlink jbp) ∨ f !! q = Some (File (Text directive)).

(** The tree that extraction left at [src] is found below [jep]: each entry
    at the same relative path, unless a later step wrote that path. *)
Definition julia_tree_at (fx f' : gmap string node) (src jep jbp directive : string) : Prop :=
  is_Some (fx !! src) ∧
  ∀ s n, below s → fx !! (src +:+ s) = Some n →
    f' !! (jep +:+ s) = Some n ∨
    f' !! (jep +:+ s) = Some (Symlink jbp) ∨
    f' !! (jep +:+ s) = Some (File (Text directive)).

(** [y] is an end of [s]. *)
Fixpoint is_suffix (y s : string) : bool :=
  String.eqb y s ||
  match s with
  | EmptyString => false
  | String _ s' => is_suffix y s'
  end.

(** No link in [f] has [t] as its target. *)
Definition no_link_to (t : string) (f : gmap string node) : Prop :=
  ∀ q, f !! q ≠ Some (Symlink t).

(** ** Example worlds

    A manifest with two stable versions and a release candidate, the archive
    the host serves for the selected build, and an image with the two
    environment variables set. *)

Definition example_versions : gmap string version_info :=
  <["1.9.0" := VersionInfo true
      [FileInfo "aarch64-linux-gnu" "https://host/julia-1.9.0-linux-aarch64.tar.gz" "1.9.0";
       FileInfo "x86_64-linux-gnu" "https://host/julia-1.9.0-linux-x86_64.tar.gz" "1.9.0";
       FileInfo "x86_64-w64-mingw32" "https://host/julia-1.9.0-win64.exe" "1.9.0"]]>
  (<["1.10.0" := VersionInfo true
      [FileInfo "x86_64-linux-gnu" "https://host/julia-1.10.0-linux-x86_64.tar.gz" "1.10.0"]]>
  (<["1.11.0-rc1" := VersionInfo false
      [FileInfo "x86_64-linux-gnu" "https://host/julia-1.11.0-rc1-linux-x86_64.tar.gz" "1.11.0-rc1"]]>
   ∅)).

Definition example_archive : list (string * member) :=
  [("julia-1.9.0", MDir);
   ("julia-1.9.0/bin", MDir);
   ("julia-1.9.0/bin/julia", MFile "ELF");
   ("julia-1.9.0/lib", MDir);
   ("julia-1.9.0/lib/libjulia.so", MLink "libjulia.so.1.9")].

Definition example_remote (u : string) : option data :=
  if String.eqb u "https://host/julia-1.9.0-linux-x86_64.tar.gz"
  then Some (Tarball example_archive)
  else None.

Definition example_environ : gmap string string :=
  <["CONDA_DIR" := "/opt/conda"]> (<["JULIA_PKGDIR" := "/opt/julia"]> ∅).

Definition example_world : world :=
  {| environ := example_environ;
     machine := "x86_64";
     versions_json := Returned example_versions;
     remote := example_remote;
     fs := <["/tmp" := Dir]> (<["/opt" := Dir]> (<["/opt/conda" := Dir]> ∅)) |}.

Definition with_machine (m : string) (w : world) : world :=
  {| environ := environ w; machine := m;
     versions_json := versions_json w; remote := remote w; fs := fs w |}.

Definition with_environ (e : gmap string string) (w : world) : world :=
  {| environ := e; machine := machine w;
     versions_json := versions_json w; remote := remote w; fs := fs w |}.

Definition example_downloaded : world :=
  set_fs (<[tmp_julia := File (Tarball example_archive)]> (fs example_world)) example_world.

(** An image in which the jupyter environment still has a link to a Julia
    that was removed: the link dangles. *)
Definition stale_link_world : world :=
  set_fs (<["/opt/conda/envs" := Dir]>
          (<["/opt/conda/envs/jupyter" := Dir]>
          (<["/opt/conda/envs/jupyter/bin" := Dir]>
          (<["/opt/conda/envs/jupyter/bin/julia" := Symlink "/opt/julia-1.8.5/bin/julia"]>
           (fs example_world)))))
    example_world.

(** A host that answers the download with an error page. *)
Definition error_page_world : world :=
  {| environ := environ example_world; machine := machine example_world;
     versions_json := versions_json example_world;
     remote := fun _ => Some (Text "<html>404 Not Found</html>");
     fs := fs example_world |}.

(** An image on which Julia is installed already: a directory is at the
    [julia] path of the conda environment. *)
Definition reinstall_world : world :=
  set_fs (<["/opt/conda/envs" := Dir]>
          (<["/opt/conda/envs/julia-env" := Dir]>
          (<["/opt/conda/envs/julia-env/julia" := Dir]>
           (fs example_downloaded))))
    example_downloaded.

(** What extraction leaves in the two images. *)
Definition example_unpacked : gmap string node :=
  <["/opt/conda/envs/julia-env/julia-1.9.0/lib/libjulia.so" := Symlink "libjulia.so.1.9"]>
  (<["/opt/conda/envs/julia-env/julia-1.9.0/lib" := Dir]>
  (<["/opt/conda/envs/julia-env/julia-1.9.0/bin/julia" := File (Text "ELF")]>
  (<["/opt/conda/envs/julia-env/julia-1.9.0/bin" := Dir]>
  (<["/opt/conda/envs/julia-env/julia-1.9.0" := Dir]>
  (<["/opt/conda/envs/julia-env" := Dir]>
  (<["/opt/conda/envs" := Dir]>
    (fs example_downloaded))))))).

Definition reinstall_unpacked : gmap string node :=
  match unpack_fs tmp_julia "/opt/conda/envs/julia-env" (fs reinstall_world) with
  | Returned f => f
  | Raised _ => ∅
  end.

(** The image a run on [reinstall_world] ends in. *)
Definition reinstalled : world :=
  snd (prepare_julia "1.9.0" "julia-env" "jupyter" reinstall_world).

(** An image whose package directory is set to the archive path. *)
Definition pkgdir_world : world :=
  with_environ (<["CONDA_DIR" := "/opt/conda"]> (<["JULIA_PKGDIR" := tmp_julia]> ∅))
    example_world.

(** ** Further example worlds *)

(** The world with another manifest reply. *)
Definition with_versions (vs : gmap string version_info) (w : world) : world :=
  {| environ := environ w; machine := machine w;
     versions_json := Returned vs; remote := remote w; fs := fs w |}.

(** A manifest whose newest stable entry lists two builds for one triplet. *)
Definition mirror_versions : gmap string version_info :=
  <["1.9.0" := VersionInfo true
      [FileInfo "x86_64-linux-musl" "https://host/julia-1.9.0-musl-x86_64.tar.gz" "1.9.0";
       FileInfo "x86_64-linux-gnu" "https://host/julia-1.9.0-linux-x86_64.tar.gz" "1.9.0";
       FileInfo "x86_64-linux-gnu" "https://mirror/julia-1.9.0-linux-x86_64.zip" "1.9.0-mirror"]]>
  ∅.

(** A manifest that lists release candidates only. *)
Definition candidates_only : gmap string version_info :=
  <["1.11.0-rc1" := VersionInfo false
      [FileInfo "x86_64-linux-gnu" "https://host/julia-1.11.0-rc1-linux-x86_64.tar.gz" "1.11.0-rc1"]]>
  (<["1.11.0-rc2" := VersionInfo false []]> ∅).

(** Lines 115-117, and again 124-127: the link at [p] is replaced by one
    to [t]. *)
Definition replace_link (t p : string) : io unit :=
  there <- os_path_exists p ;;
  (if there then os_remove p else ret tt) ;;;
  os_symlink t p.

(** The image after lines 95-101 have run on [example_downloaded], and after
    the linking step as well. *)
Definition example_unpacked_world : world :=
  snd (unpack_julia "1.9.0" "/opt/conda/envs/julia-env" "/opt/conda/envs/julia-env/julia"
         example_downloaded).

Definition example_linked_world : world :=
  snd (link_julia "/opt/conda/envs/julia-env" "/opt/conda/envs/julia-env/julia" "jupyter"
         example_unpacked_world).

(** * Properties *)

(** ** The monad *)

Lemma bind_returned {A B} (m : io A) (k : A → io B) w b w' :
  bind m k w = (Returned b, w') ↔
  ∃ a w1, m w = (Returned a, w1) ∧ k a w1 = (Returned b, w').
Proof.
  unfold bind. split.
  - destruct (m w) as [[a|e] w1]; [eauto | discriminate].
  - intros (a & w1 & -> & Hk). exact Hk.
Qed.

Lemma bind_raised_first {A B} (m : io A) (k : A → io B) w e w' :
  m w = (Raised e, w') → bind m k w = (Raised e, w').
Proof. unfold bind. intros ->. reflexivity. Qed.

Lemma bind_run {A B} (m : io A) (k : A → io B) w :
  bind m k w = match m w with
               | (Returned a, w') => k a w'
               | (Raised e, w') => (Raised e, w')
               end.
Proof. reflexivity. Qed.

Lemma bind_step {A B} (m : io A) (k : A → io B) w a w1 :
  m w = (Returned a, w1) → bind m k w = k a w1.
Proof. unfold bind. intros ->. reflexivity. Qed.

Lemma update_fs_returned op w u w' :
  update_fs op w = (Returned u, w') ↔
  ∃ f', op (fs w) = Returned f' ∧ w' = set_fs f' w.
Proof.
  unfold update_fs. split.
  - destruct (op (fs w)) as [f'|e]; [|discriminate].
    intros [= _ <-]. eauto.
  - intros (f' & -> & ->). by destruct u.
Qed.

Lemma update_fs_raised op w e w' :
  update_fs op w = (Raised e, w') ↔ op (fs w) = Raised e ∧ w' = w.
Proof.
  unfold update_fs. split.
  - destruct (op (fs w)) as [f'|e0]; [discriminate|]. by intros [= -> <-].
  - by intros [-> ->].
Qed.

(** ** String order *)

Lemma ltb_false_le a y : String.ltb a y = false → String.le y a.
Proof.
  unfold String.ltb, String.le, String.leb.
  rewrite (String.compare_antisym a y).
  destruct (String.compare y a); simpl; done.
Qed.

Lemma ltb_true_le a y : String.ltb a y = true → String.le a y.
Proof.
  unfold String.ltb, String.le, String.leb.
  destruct (String.compare a y); simpl; done.
Qed.

Lemma ltb_true_ne a y : String.ltb a y = true → a ≠ y.
Proof.
  unfold String.ltb. intros H ->.
  pose proof (String.compare_antisym y y) as Hc.
  destruct (String.compare y y); simpl in *; discriminate.
Qed.

Lemma ltb_true_not_le a y : String.ltb a y = true → ¬ String.le y a.
Proof.
  intros Hlt Hle. apply (ltb_true_ne _ _ Hlt).
  apply (anti_symm String.le); [by apply ltb_true_le | done].
Qed.

(** ** [max] over the keys *)

Lemma fold_max_spec (r : list string) (x : string) :
  let m := fold_left (fun acc y => if String.ltb acc y then y else acc) r x in
  (m = x ∨ m ∈ r) ∧ String.le x m ∧ ∀ y, y ∈ r → String.le y m.
Proof.
  revert x. induction r as [|y r IH]; intros x; simpl.
  - split; [by left|]. split; [done|]. intros y Hy. by apply elem_of_nil in Hy.
  - destruct (IH (if String.ltb x y then y else x)) as (Hin & Hle & Hall).
    destruct (String.ltb x y) eqn:Hxy.
    + split; [right; destruct Hin as [->|Hin]; [left | by right]|].
      split; [by etrans; [apply ltb_true_le|] |].
      intros z [->|Hz]%elem_of_cons; [done | by apply Hall].
    + split; [destruct Hin as [->|Hin]; [by left | right; by right]|].
      split; [done|].
      intros z [->|Hz]%elem_of_cons; [|by apply Hall].
      by etrans; [apply ltb_false_le|].
Qed.

Lemma py_max_spec (l : list string) (k : string) :
  py_max l = Returned k → k ∈ l ∧ ∀ y, y ∈ l → String.le y k.
Proof.
  destruct l as [|x r]; simpl; [discriminate|]. intros [= <-].
  destruct (fold_max_spec r x) as (Hin & Hle & Hall). split.
  - destruct Hin as [->|Hin]; [left | by right].
  - intros y [->|Hy]%elem_of_cons; [done | by apply Hall].
Qed.

Lemma py_max_nonempty (l : list string) (x : string) :
  x ∈ l → ∃ k, py_max l = Returned k.
Proof. destruct l; [by intros ?%elem_of_nil | simpl; eauto]. Qed.

Lemma elem_of_keys (m : gmap string version_info) (k : string) :
  k ∈ keys m ↔ is_Some (m !! k).
Proof.
  unfold keys. rewrite list_elem_of_fmap. split.
  - intros ([k' v] & -> & H%elem_of_map_to_list). by exists v.
  - intros [v Hv]. exists (k, v). split; [done | by apply elem_of_map_to_list].
Qed.

Lemma stable_only_lookup versions k v :
  stable_only versions !! k = Some v ↔ versions !! k = Some v ∧ stable v = true.
Proof. unfold stable_only. by rewrite map_lookup_filter_Some. Qed.

(** [max(stable_versions)] is the greatest stable key, and it is found as
    soon as one version is stable. *)
Lemma latest_is_greatest versions latest :
  py_max (keys (stable_only versions)) = Returned latest →
  greatest_stable versions latest.
Proof.
  intros [Hin Hmax]%py_max_spec. split.
  - apply elem_of_keys in Hin as [v Hv]. exists v. by apply stable_only_lookup.
  - intros k vk Hk Hs. apply Hmax, elem_of_keys. exists vk.
    by apply stable_only_lookup.
Qed.

Lemma greatest_stable_unique versions k1 k2 :
  greatest_stable versions k1 → greatest_stable versions k2 → k1 = k2.
Proof.
  intros [(v1 & Hv1 & Hs1) H1] [(v2 & Hv2 & Hs2) H2].
  apply (anti_symm String.le); eauto.
Qed.

Lemma latest_exists versions k v :
  versions !! k = Some v → stable v = true →
  ∃ latest, py_max (keys (stable_only versions)) = Returned latest.
Proof.
  intros Hk Hs. apply (py_max_nonempty _ k), elem_of_keys.
  exists v. by apply stable_only_lookup.
Qed.

(** ** [get_latest_julia_url] *)

Lemma get_latest_unfold w versions latest v :
  versions_json w = Returned versions →
  greatest_stable versions latest →
  versions !! latest = Some v →
  get_latest_julia_url w = (pick_file (machine w) (files v), w).
Proof.
  intros Hj Hg Hv. destruct Hg as [(v' & Hv' & Hs) Hmax].
  assert (v' = v) as -> by congruence.
  destruct (latest_exists versions latest v Hv Hs) as [l' Hl'].
  assert (l' = latest) as ->.
  { eapply greatest_stable_unique; [by apply latest_is_greatest|].
    split; [by eauto | done]. }
  unfold get_latest_julia_url, bind, requests_get_json, lift, platform_machine, ret.
  rewrite Hj, Hl'. unfold getitem at 1.
  rewrite (proj2 (stable_only_lookup versions latest v) (conj Hv Hs)).
  unfold pick_file. destruct (unify_aarch64 (machine w)) as [arch|e]; [|done].
  by destruct (first _).
Qed.

Lemma get_latest_world w : snd (get_latest_julia_url w) = w.
Proof.
  unfold get_latest_julia_url, bind, requests_get_json, lift, platform_machine, ret.
  destruct (versions_json w) as [versions|e]; [|done].
  destruct (py_max _) as [latest|e]; [|done].
  destruct (getitem _ latest) as [v|e]; [|done].
  destruct (unify_aarch64 _) as [arch|e]; [|done].
  by destruct (first _).
Qed.

Lemma matching_first_spec t fl vf :
  first (matching t fl) = Returned vf ↔
  ∃ l1 l2, fl = (l1 ++ vf :: l2)%list ∧ triplet vf = t ∧ Forall (fun x => triplet x ≠ t) l1.
Proof.
  induction fl as [|x fl IH]; simpl.
  - split; [discriminate|]. intros (l1 & l2 & H & _). by destruct l1.
  - destruct (String.eqb_spec (triplet x) t) as [Heq|Hne]; simpl.
    + split.
      * intros [= <-]. by exists [], fl.
      * intros ([|y l1] & l2 & H & Ht & Hall); simplify_eq/=; [done|].
        by apply Forall_cons in Hall as [? _].
    + rewrite IH. split.
      * intros (l1 & l2 & -> & Ht & Hall). exists (x :: l1), l2.
        split; [done|]. split; [done|]. by constructor.
      * intros ([|y l1] & l2 & H & Ht & Hall); simplify_eq/=.
        apply Forall_cons in Hall as [_ Hall]. eauto.
Qed.

Lemma get_latest_raised_world w e w' :
  get_latest_julia_url w = (Raised e, w') → w' = w.
Proof. intros H. pose proof (get_latest_world w) as Hw. by rewrite H in Hw. Qed.

Lemma unify_aarch64_other p :
  p ≠ "aarch64" → p ≠ "arm64" → p ≠ "x86_64" →
  unify_aarch64 p = Raised (KeyError p).
Proof.
  intros H1 H2 H3. unfold unify_aarch64, getitem, arch_table.
  by rewrite !lookup_insert_ne, lookup_empty.
Qed.

Lemma get_latest_unsupported w :
  unify_aarch64 (machine w) = Raised (KeyError (machine w)) →
  ∃ e, get_latest_julia_url w = (Raised e, w).
Proof.
  intros Hu.
  unfold get_latest_julia_url, bind, requests_get_json, lift, platform_machine, ret.
  destruct (versions_json w) as [versions|e]; [|by eauto].
  destruct (py_max _) as [latest|e]; [|by eauto].
  destruct (getitem _ latest) as [v|e]; [|by eauto].
  rewrite Hu. eauto.
Qed.

(** C9: [unify_aarch64] maps "aarch64" and "arm64" to "aarch64" and "x86_64"
    to itself, and raises [KeyError] on every other machine name; on such a
    machine [get_latest_julia_url], and with it the script, stops with an
    exception in the world it started in (nothing downloaded, the file
    system untouched), and the exception is that [KeyError] whenever the
    manifest was fetched and lists a stable version. *)
Theorem unify_aarch64_unsupported :
  unify_aarch64 "aarch64" = Returned "aarch64" ∧
  unify_aarch64 "arm64" = Returned "aarch64" ∧
  unify_aarch64 "x86_64" = Returned "x86_64" ∧
  ∀ p, p ≠ "aarch64" → p ≠ "arm64" → p ≠ "x86_64" →
    unify_aarch64 p = Raised (KeyError p) ∧
    ∀ w, machine w = p →
      (∃ e, get_latest_julia_url w = (Raised e, w) ∧ main w = (Raised e, w)) ∧
      (∀ versions k v,
          versions_json w = Returned versions →
          versions !! k = Some v → stable v = true →
          get_latest_julia_url w = (Raised (KeyError p), w) ∧
          main w = (Raised (KeyError p), w)).
Proof.
  split; [reflexivity|]. split; [reflexivity|]. split; [reflexivity|].
  intros p H1 H2 H3.
  pose proof (unify_aarch64_other p H1 H2 H3) as Hu.
  split; [done|]. intros w <-. split.
  - destruct (get_latest_unsupported w Hu) as [e He].
    exists e. split; [done|]. unfold main. by apply bind_raised_first.
  - intros versions k v Hj Hk Hs.
    destruct (latest_exists versions k v Hk Hs) as [latest Hl].
    destruct (latest_is_greatest _ _ Hl) as [(vl & Hvl & Hsl) Hmax].
    assert (get_latest_julia_url w = (Raised (KeyError (machine w)), w)) as Hg.
    { rewrite (get_latest_unfold w versions latest vl Hj); [|split; eauto|done].
      unfold pick_file. by rewrite Hu. }
    split; [done|]. unfold main. by apply bind_raised_first.
Qed.

Lemma unify_aarch64_unsupported_witness :
  main (with_machine "riscv64" example_world)
  = (Raised (KeyError "riscv64"), with_machine "riscv64" example_world).
Proof.
  destruct unify_aarch64_unsupported as (_ & _ & _ & H).
  destruct (H "riscv64") as [_ Hw]; [done..|].
  destruct (Hw (with_machine "riscv64" example_world) eq_refl) as [_ Hk].
  apply (Hk example_versions "1.9.0" _ eq_refl eq_refl eq_refl).
Defined.

(** C1: for a manifest of the known shape whose latest stable entry lists a
    file for the triplet of the current machine, the filtering step returns
    the url and the version of that file (of the first such file in list
    order, should several carry the triplet). *)
Theorem platform_filter_selects w versions latest v arch vf :
  versions_json w = Returned versions →
  greatest_stable versions latest →
  versions !! latest = Some v →
  unify_aarch64 (machine w) = Returned arch →
  vf ∈ files v →
  triplet vf = arch +:+ "-linux-gnu" →
  (∀ vf', vf' ∈ files v → triplet vf' = arch +:+ "-linux-gnu" → vf' = vf) →
  get_latest_julia_url w = (Returned (url vf, version vf), w).
Proof.
  intros Hj Hg Hv Hu Hin Ht Huniq.
  rewrite (get_latest_unfold w versions latest v Hj Hg Hv).
  unfold pick_file. rewrite Hu.
  destruct (first (matching _ (files v))) as [x|e] eqn:Hf.
  - apply matching_first_spec in Hf as (l1 & l2 & Hfl & Hx & _).
    assert (x = vf) as ->; [|done].
    apply Huniq; [|done]. rewrite Hfl. apply elem_of_app. right. by left.
  - exfalso. unfold matching in Hf.
    assert (vf ∈ List.filter (fun x => String.eqb (triplet x) (arch +:+ "-linux-gnu")) (files v)) as Hm.
    { apply list_elem_of_In, filter_In. split; [by apply list_elem_of_In|].
      by apply String.eqb_eq. }
    destruct (List.filter _ _); [by apply elem_of_nil in Hm | discriminate].
Qed.

Lemma platform_filter_selects_witness :
  get_latest_julia_url example_world
  = (Returned ("https://host/julia-1.9.0-linux-x86_64.tar.gz", "1.9.0"), example_world).
Proof.
  apply (platform_filter_selects example_world example_versions "1.9.0"
           (VersionInfo true
              [FileInfo "aarch64-linux-gnu" "https://host/julia-1.9.0-linux-aarch64.tar.gz" "1.9.0";
               FileInfo "x86_64-linux-gnu" "https://host/julia-1.9.0-linux-x86_64.tar.gz" "1.9.0";
               FileInfo "x86_64-w64-mingw32" "https://host/julia-1.9.0-win64.exe" "1.9.0"])
           "x86_64"
           (FileInfo "x86_64-linux-gnu" "https://host/julia-1.9.0-linux-x86_64.tar.gz" "1.9.0")).
  - reflexivity.
  - apply latest_is_greatest. vm_compute. reflexivity.
  - reflexivity.
  - reflexivity.
  - simpl. right. left.
  - reflexivity.
  - simpl. intros vf' Hin Ht.
    repeat (apply elem_of_cons in Hin as [->|Hin]); try discriminate Ht; try reflexivity.
    by apply elem_of_nil in Hin.
Defined.

(** C8: the version [get_latest_julia_url] works with is the greatest stable
    key under string comparison.  Whenever two stable keys [a] and [b] have
    [a] before [b] in that order, a stable key that no stable key exceeds is
    selected, it is not [a], and it is [b] when these two are the only
    stable keys; the numeric reading of the keys plays no part ("1.10.0" is
    before "1.9.0"). *)
Theorem latest_is_lexicographic_max w versions a b va vb :
  versions_json w = Returned versions →
  versions !! a = Some va → stable va = true →
  versions !! b = Some vb → stable vb = true →
  String.ltb a b = true →
  ∃ latest v,
    py_max (keys (stable_only versions)) = Returned latest ∧
    versions !! latest = Some v ∧ stable v = true ∧
    (∀ k vk, versions !! k = Some vk → stable vk = true → String.le k latest) ∧
    latest ≠ a ∧
    ((∀ k vk, versions !! k = Some vk → stable vk = true → k = a ∨ k = b) → latest = b) ∧
    get_latest_julia_url w = (pick_file (machine w) (files v), w).
Proof.
  intros Hj Ha Hsa Hb Hsb Hlt.
  destruct (latest_exists versions a va Ha Hsa) as [latest Hl].
  pose proof (latest_is_greatest _ _ Hl) as Hg.
  destruct Hg as [(v & Hv & Hs) Hmax].
  assert (latest ≠ a) as Hne.
  { intros ->. by apply (ltb_true_not_le _ _ Hlt), (Hmax b vb). }
  exists latest, v. repeat split; try done.
  - intros Honly. by destruct (Honly latest v Hv Hs).
  - apply (get_latest_unfold w versions latest v Hj); [|done].
    split; [by eauto | done].
Qed.

Lemma latest_is_lexicographic_max_witness :
  String.ltb "1.10.0" "1.9.0" = true ∧
  ∃ latest v,
    py_max (keys (stable_only example_versions)) = Returned latest ∧
    example_versions !! latest = Some v ∧ stable v = true ∧
    (∀ k vk, example_versions !! k = Some vk → stable vk = true → String.le k latest) ∧
    latest ≠ "1.10.0" ∧
    ((∀ k vk, example_versions !! k = Some vk → stable vk = true →
        k = "1.10.0" ∨ k = "1.9.0") → latest = "1.9.0") ∧
    get_latest_julia_url example_world
    = (pick_file (machine example_world) (files v), example_world).
Proof.
  split; [reflexivity|].
  apply (latest_is_lexicographic_max example_world example_versions "1.10.0" "1.9.0"
           (VersionInfo true
              [FileInfo "x86_64-linux-gnu" "https://host/julia-1.10.0-linux-x86_64.tar.gz" "1.10.0"])
           (VersionInfo true
              [FileInfo "aarch64-linux-gnu" "https://host/julia-1.9.0-linux-aarch64.tar.gz" "1.9.0";
               FileInfo "x86_64-linux-gnu" "https://host/julia-1.9.0-linux-x86_64.tar.gz" "1.9.0";
               FileInfo "x86_64-w64-mingw32" "https://host/julia-1.9.0-win64.exe" "1.9.0"]));
    reflexivity.
Defined.

(** ** The world outside the file system is never written *)

Lemma set_fs_fs f w : fs (set_fs f w) = f.
Proof. reflexivity. Qed.

Lemma set_fs_set_fs f g w : set_fs f (set_fs g w) = set_fs f w.
Proof. reflexivity. Qed.

Lemma set_fs_id w : set_fs (fs w) w = w.
Proof. by destruct w. Qed.

Lemma only_fs_ret {A} (a : A) : only_fs (ret a).
Proof. intros w. simpl. by rewrite set_fs_id. Qed.

Lemma only_fs_lift {A} (o : outcome A) : only_fs (lift o).
Proof. intros w. simpl. by rewrite set_fs_id. Qed.

Lemma only_fs_bind {A B} (m : io A) (k : A → io B) :
  only_fs m → (∀ a, only_fs (k a)) → only_fs (bind m k).
Proof.
  intros Hm Hk w. unfold bind. specialize (Hm w).
  destruct (m w) as [[a|e] w1]; simpl in *; [|done].
  rewrite (Hk a w1). rewrite Hm at 2. reflexivity.
Qed.

Lemma only_fs_update op : only_fs (update_fs op).
Proof.
  intros w. unfold update_fs. destruct (op (fs w)); simpl; [done|].
  by rewrite set_fs_id.
Qed.

Lemma only_fs_exists p : only_fs (os_path_exists p).
Proof. intros w. simpl. by rewrite set_fs_id. Qed.

Lemma only_fs_environ k : only_fs (os_environ k).
Proof. intros w. simpl. by rewrite set_fs_id. Qed.

Lemma only_fs_curl u out : only_fs (curl u out).
Proof.
  intros w. unfold curl. destruct (remote w u); simpl; [|by rewrite set_fs_id].
  destruct (write_fs _ _ _); simpl; [done | by rewrite set_fs_id].
Qed.

Lemma only_fs_if {A} (b : bool) (m1 m2 : io A) :
  only_fs m1 → only_fs m2 → only_fs (if b then m1 else m2).
Proof. by destruct b. Qed.

Create HintDb only_fs.
#[local] Hint Resolve only_fs_ret only_fs_lift only_fs_update only_fs_exists
  only_fs_environ only_fs_curl only_fs_if : only_fs.
#[local] Hint Extern 2 (only_fs (bind _ _)) =>
  apply only_fs_bind; [|intros ?] : only_fs.
#[local] Hint Extern 1 (only_fs (os_remove _)) => apply only_fs_update : only_fs.
#[local] Hint Extern 1 (only_fs (os_symlink _ _)) => apply only_fs_update : only_fs.
#[local] Hint Extern 1 (only_fs (os_makedirs _)) => apply only_fs_update : only_fs.
#[local] Hint Extern 1 (only_fs (write_text _ _)) => apply only_fs_update : only_fs.
#[local] Hint Extern 1 (only_fs (shutil_unpack_archive _ _)) => apply only_fs_update : only_fs.
#[local] Hint Extern 1 (only_fs (mv _ _)) => apply only_fs_update : only_fs.

Lemma only_fs_unpack_julia v cep jep : only_fs (unpack_julia v cep jep).
Proof. unfold unpack_julia. auto 10 with only_fs. Qed.

Lemma only_fs_link_julia cep jep j : only_fs (link_julia cep jep j).
Proof. unfold link_julia. auto 20 with only_fs. Qed.

Lemma only_fs_write_startup cep jep : only_fs (write_startup cep jep).
Proof. unfold write_startup. auto 10 with only_fs. Qed.

Lemma only_fs_download u : only_fs (download_julia u).
Proof. unfold download_julia. auto with only_fs. Qed.

Lemma only_fs_environ_eq {A} (m : io A) w :
  only_fs m → environ (snd (m w)) = environ w.
Proof. intros H. by rewrite (H w). Qed.

Lemma os_environ_run k w : os_environ k w = (getitem (environ w) k, w).
Proof. reflexivity. Qed.

(** ** Missing environment variables *)

Lemma getitem_none {V} (m : gmap string V) k :
  m !! k = None → getitem m k = Raised (KeyError k).
Proof. unfold getitem. by intros ->. Qed.

Lemma getitem_some {V} (m : gmap string V) k v :
  m !! k = Some v → getitem m k = Returned v.
Proof. unfold getitem. by intros ->. Qed.

Lemma prepare_julia_unfold v c j w cd :
  environ w !! "CONDA_DIR" = Some cd →
  prepare_julia v c j w =
  (let conda_env_path := os_path_join (os_path_join cd "envs") c in
   let julia_env_path := os_path_join conda_env_path "julia" in
   unpack_julia v conda_env_path julia_env_path ;;;
   link_julia conda_env_path julia_env_path j ;;;
   julia_pkg_dir <- os_environ "JULIA_PKGDIR" ;;
   os_makedirs julia_pkg_dir ;;;
   write_startup conda_env_path julia_env_path) w.
Proof.
  intros Hcd. unfold prepare_julia. unfold bind at 1.
  by rewrite os_environ_run, (getitem_some _ _ _ Hcd).
Qed.

Lemma prepare_julia_no_conda_dir v c j w :
  environ w !! "CONDA_DIR" = None →
  prepare_julia v c j w = (Raised (KeyError "CONDA_DIR"), w).
Proof.
  intros Hcd. unfold prepare_julia. apply bind_raised_first.
  by rewrite os_environ_run, (getitem_none _ _ Hcd).
Qed.

(** C4: without [CONDA_DIR], [prepare_julia] raises [KeyError] at its first
    statement, in the world it was called in; without [JULIA_PKGDIR] it
    raises [KeyError] at line 131, in the world the linking step left, unless
    an earlier step had raised already; either way the script never
    returns, and no default stands in for the variable. *)
Theorem missing_environment_variable :
  (∀ v c j w,
      environ w !! "CONDA_DIR" = None →
      prepare_julia v c j w = (Raised (KeyError "CONDA_DIR"), w)) ∧
  (∀ v c j w cd,
      environ w !! "CONDA_DIR" = Some cd →
      environ w !! "JULIA_PKGDIR" = None →
      let conda_env_path := os_path_join (os_path_join cd "envs") c in
      let julia_env_path := os_path_join conda_env_path "julia" in
      prepare_julia v c j w =
      match (unpack_julia v conda_env_path julia_env_path ;;;
             link_julia conda_env_path julia_env_path j) w with
      | (Returned _, w1) => (Raised (KeyError "JULIA_PKGDIR"), w1)
      | (Raised e, w1) => (Raised e, w1)
      end) ∧
  (∀ w,
      environ w !! "CONDA_DIR" = None ∨ environ w !! "JULIA_PKGDIR" = None →
      ∃ e w', main w = (Raised e, w')).
Proof.
  pose proof prepare_julia_no_conda_dir as H1.
  assert (∀ v c j w cd,
      environ w !! "CONDA_DIR" = Some cd →
      environ w !! "JULIA_PKGDIR" = None →
      let conda_env_path := os_path_join (os_path_join cd "envs") c in
      let julia_env_path := os_path_join conda_env_path "julia" in
      prepare_julia v c j w =
      match (unpack_julia v conda_env_path julia_env_path ;;;
             link_julia conda_env_path julia_env_path j) w with
      | (Returned _, w1) => (Raised (KeyError "JULIA_PKGDIR"), w1)
      | (Raised e, w1) => (Raised e, w1)
      end) as H2.
  { intros v c j w cd Hcd Hpkg cep jep.
    rewrite (prepare_julia_unfold v c j w cd Hcd). cbv zeta. fold cep. fold jep.
    rewrite !bind_run.
    pose proof (only_fs_environ_eq (unpack_julia v cep jep) w
                  (only_fs_unpack_julia v cep jep)) as He1.
    destruct (unpack_julia v cep jep w) as [[[]|e] w1]; [|done].
    rewrite !bind_run.
    pose proof (only_fs_environ_eq (link_julia cep jep j) w1
                  (only_fs_link_julia cep jep j)) as He2.
    destruct (link_julia cep jep j w1) as [[[]|e] w2]; [|done].
    simpl in He1, He2. apply bind_raised_first.
    rewrite os_environ_run, getitem_none; [done|]. by rewrite He2, He1. }
  split; [exact H1|]. split; [exact H2|].
  intros w Hmiss. unfold main.
  pose proof (get_latest_world w) as Hw.
  destruct (get_latest_julia_url w) as [[[u v]|e] w0] eqn:Hg; simpl in Hw; subst w0;
    [|by exists e, w; apply bind_raised_first].
  rewrite (bind_step _ _ _ _ _ Hg). simpl.
  pose proof (only_fs_environ_eq (download_julia u) w (only_fs_download u)) as Hd.
  destruct (download_julia u w) as [[[]|e] w1] eqn:Hdl; simpl in Hd;
    [|by exists e, w1; apply bind_raised_first].
  rewrite (bind_step _ _ _ _ _ Hdl).
  destruct (environ w !! "CONDA_DIR") as [cd|] eqn:Hcd.
  - destruct Hmiss as [?|Hpkg]; [done|].
    rewrite (H2 v "julia-env" "jupyter" w1 cd); [|by rewrite Hd..].
    destruct (bind _ _ w1) as [[[]|e] w2]; eauto.
  - rewrite (H1 v "julia-env" "jupyter" w1); [eauto | by rewrite Hd].
Qed.

Lemma missing_environment_variable_witness :
  prepare_julia "1.9.0" "julia-env" "jupyter" (with_environ ∅ example_world)
  = (Raised (KeyError "CONDA_DIR"), with_environ ∅ example_world) ∧
  ∃ e w',
    main (with_environ (<["CONDA_DIR" := "/opt/conda"]> ∅) example_world)
    = (Raised e, w').
Proof.
  destruct missing_environment_variable as (H1 & _ & H3). split.
  - apply H1. reflexivity.
  - apply H3. right. reflexivity.
Defined.

(** ** Links and their resolution *)

Lemma resolve_not_link n (f : gmap string node) p r :
  resolve n f p = Some r → ∀ t, f !! r ≠ Some (Symlink t).
Proof.
  revert p. induction n as [|n IH]; intros p; simpl.
  - destruct (f !! p) as [[d| |t]|] eqn:Hp; intros [= <-] t'; congruence.
  - destruct (f !! p) as [[d| |t]|] eqn:Hp; [| |by apply IH|];
      intros [= <-] t'; congruence.
Qed.

Lemma resolve_insert_file n (f : gmap string node) r d p :
  (∀ t, f !! r ≠ Some (Symlink t)) →
  resolve n (<[r := File d]> f) p = resolve n f p.
Proof.
  intros Hr. revert p. induction n as [|n IH]; intros p; simpl.
  - destruct (decide (r = p)) as [->|Hne].
    + rewrite lookup_insert_eq. destruct (f !! p) as [[| |t]|] eqn:Hp; try done.
      by destruct (Hr t).
    + by rewrite lookup_insert_ne.
  - destruct (decide (r = p)) as [->|Hne].
    + rewrite lookup_insert_eq. destruct (f !! p) as [[| |t]|] eqn:Hp; try done.
      by destruct (Hr t).
    + rewrite lookup_insert_ne by done.
      destruct (f !! p) as [[| |t]|]; by try apply IH.
Qed.

Lemma write_fs_returned p d (f f' : gmap string node) :
  write_fs p d f = Returned f' ↔
  ∃ r, resolve SYMLOOP_MAX f p = Some r ∧ f !! r ≠ Some Dir ∧ f' = <[r := File d]> f.
Proof.
  unfold write_fs. split.
  - destruct (resolve _ f p) as [r|]; [|discriminate].
    destruct (f !! r) as [[| |]|] eqn:Hr; try discriminate;
      intros [= <-]; exists r; by rewrite Hr.
  - intros (r & -> & Hr & ->). by destruct (f !! r) as [[| |]|].
Qed.

(** What was written is what is read back, through the same links. *)
Lemma read_after_write p d (f f' : gmap string node) :
  write_fs p d f = Returned f' → read_fs f' p = Some d.
Proof.
  intros (r & Hres & _ & ->)%write_fs_returned.
  unfold read_fs, stat.
  rewrite resolve_insert_file by by eapply resolve_not_link.
  by rewrite Hres, lookup_insert_eq.
Qed.

(** A write never touches a link node. *)
Lemma write_fs_keeps_links p d (f f' : gmap string node) q t :
  write_fs p d f = Returned f' →
  f !! q = Some (Symlink t) → f' !! q = Some (Symlink t).
Proof.
  intros (r & Hres & _ & ->)%write_fs_returned Hq.
  rewrite lookup_insert_ne; [done|].
  intros ->. by eapply resolve_not_link.
Qed.

(** ** Creating directories only adds directories *)

Lemma adds_dirs_refl f : adds_dirs f f.
Proof. intros q. by left. Qed.

Lemma adds_dirs_trans f g h : adds_dirs f g → adds_dirs g h → adds_dirs f h.
Proof.
  intros H1 H2 q. destruct (H1 q) as [E1|[E1 E1']], (H2 q) as [E2|[E2 E2']].
  - left. congruence.
  - right. split; congruence.
  - right. split; congruence.
  - congruence.
Qed.

Lemma adds_dirs_insert (f : gmap string node) q :
  f !! q = None → adds_dirs f (<[q := Dir]> f).
Proof.
  intros Hq p. destruct (decide (q = p)) as [->|Hne].
  - right. by rewrite lookup_insert_eq.
  - left. by rewrite lookup_insert_ne.
Qed.

Lemma adds_dirs_some f f' q n :
  adds_dirs f f' → f !! q = Some n → f' !! q = Some n.
Proof. intros H Hq. destruct (H q) as [->|[? _]]; congruence. Qed.

Lemma adds_dirs_resolve n f f' p r x :
  adds_dirs f f' → resolve n f p = Some r → f !! r = Some x →
  resolve n f' p = Some r.
Proof.
  intros Ha. revert p. induction n as [|n IH]; intros p; simpl;
    destruct (f !! p) as [[d| |t]|] eqn:Hp;
    try rewrite (adds_dirs_some _ _ _ _ Ha Hp);
    try (intros [= <-] Hx; congruence); try done.
  intros Hr Hx. by apply IH.
Qed.

Lemma adds_dirs_stat f f' p x :
  adds_dirs f f' → stat f p = Some x → stat f' p = Some x.
Proof.
  unfold stat. intros Ha.
  destruct (resolve SYMLOOP_MAX f p) as [r|] eqn:Hr; [|done].
  intros Hx. rewrite (adds_dirs_resolve _ _ _ _ _ _ Ha Hr Hx).
  by apply (adds_dirs_some f).
Qed.

Lemma adds_dirs_isdir f f' p :
  adds_dirs f f' → isdir f p = true → isdir f' p = true.
Proof.
  unfold isdir. intros Ha. destruct (stat f p) as [[| |]|] eqn:Hs; try done.
  by rewrite (adds_dirs_stat _ _ _ _ Ha Hs).
Qed.

Lemma adds_dirs_exists f f' p :
  adds_dirs f f' → exists_fs f p = true → exists_fs f' p = true.
Proof.
  unfold exists_fs. intros Ha. destruct (stat f p) as [x|] eqn:Hs; [|done].
  by rewrite (adds_dirs_stat _ _ _ _ Ha Hs).
Qed.

Lemma isdir_insert_dir (f : gmap string node) q : isdir (<[q := Dir]> f) q = true.
Proof.
  unfold isdir, stat. simpl. by rewrite !lookup_insert_eq.
Qed.

Lemma mkdir_missing_spec q f f' :
  mkdir_missing q f = Returned f' → adds_dirs f f' ∧ isdir f' q = true.
Proof.
  unfold mkdir_missing. destruct (stat f q) as [[| |]|] eqn:Hs; try discriminate.
  - intros [= <-]. split; [apply adds_dirs_refl|]. unfold isdir. by rewrite Hs.
  - destruct (f !! q) eqn:Hq; [discriminate|]. intros [= <-].
    split; [by apply adds_dirs_insert | apply isdir_insert_dir].
Qed.

Lemma mkdirs_spec qs f f' :
  mkdirs qs f = Returned f' →
  adds_dirs f f' ∧ Forall (fun q => isdir f' q = true) qs.
Proof.
  revert f. induction qs as [|q qs IH]; intros f; simpl.
  - intros [= <-]. split; [apply adds_dirs_refl | constructor].
  - destruct (mkdir_missing q f) as [f1|e] eqn:Hm; [|discriminate].
    intros Hr. destruct (mkdir_missing_spec _ _ _ Hm) as [Ha1 Hd1].
    destruct (IH _ Hr) as [Ha2 Hall]. split; [by eapply adds_dirs_trans|].
    constructor; [by eapply adds_dirs_isdir | done].
Qed.

Lemma mkdirs_noop qs f :
  Forall (fun q => isdir f q = true) qs → mkdirs qs f = Returned f.
Proof.
  induction 1 as [|q qs Hq _ IH]; simpl; [done|].
  unfold mkdir_missing. unfold isdir in Hq.
  destruct (stat f q) as [[| |]|]; try discriminate. exact IH.
Qed.

Lemma makedirs_fs_spec p f f' :
  makedirs_fs p f = Returned f' →
  adds_dirs f f' ∧ isdir f' p = true ∧
  Forall (fun q => isdir f' q = true) (ancestors p).
Proof.
  unfold makedirs_fs. destruct (mkdirs (ancestors p) f) as [f1|e] eqn:Hm; [|discriminate].
  destruct (mkdirs_spec _ _ _ Hm) as [Ha Hall].
  destruct (isdir f1 p) eqn:Hd.
  - intros [= <-]. done.
  - destruct (f1 !! p) eqn:Hp; [discriminate|]. intros [= <-].
    pose proof (adds_dirs_insert f1 p Hp) as Ha'.
    split; [by eapply adds_dirs_trans|]. split; [apply isdir_insert_dir|].
    eapply Forall_impl; [exact Hall|]. intros q Hq. by eapply adds_dirs_isdir.
Qed.

Lemma makedirs_fs_noop p f :
  isdir f p = true → Forall (fun q => isdir f q = true) (ancestors p) →
  makedirs_fs p f = Returned f.
Proof.
  intros Hd Hall. unfold makedirs_fs. by rewrite (mkdirs_noop _ _ Hall), Hd.
Qed.

(** A second [os.makedirs] changes nothing. *)
Lemma makedirs_fs_twice p f f' :
  makedirs_fs p f = Returned f' → makedirs_fs p f' = Returned f'.
Proof.
  intros (_ & Hd & Hall)%makedirs_fs_spec. by apply makedirs_fs_noop.
Qed.

(** ** Replacing a link *)

Lemma os_path_exists_run p w :
  os_path_exists p w = (Returned (exists_fs (fs w) p), w).
Proof. reflexivity. Qed.

Lemma relink_fs_returned t p f f' :
  relink_fs t p f = Returned f' → f' = <[p := Symlink t]> (delete p f).
Proof.
  unfold relink_fs, remove_fs, symlink_fs. destruct (exists_fs f p).
  - destruct (f !! p) as [[| |]|]; try discriminate;
      rewrite lookup_delete_eq; by intros [= <-].
  - destruct (f !! p) eqn:Hp; [discriminate|]. intros [= <-].
    by rewrite delete_id.
Qed.

Lemma relink_fs_raised_world t p f e (w : world) :
  relink_fs t p f = Raised e →
  (if exists_fs f p
   then match remove_fs p f with
        | Returned f1 => set_fs f1 w
        | Raised _ => w
        end
   else w) = w.
Proof.
  unfold relink_fs. destruct (exists_fs f p); [|done].
  unfold remove_fs, symlink_fs. destruct (f !! p) as [[| |]|]; try done;
    by rewrite lookup_delete_eq.
Qed.

Lemma relink_run {A} t p (k : io A) w :
  (there <- os_path_exists p ;;
   (if there then os_remove p else ret tt) ;;;
   os_symlink t p ;;; k) w
  = match relink_fs t p (fs w) with
    | Returned f' => k (set_fs f' w)
    | Raised e =>
      (Raised e, if exists_fs (fs w) p
                 then match remove_fs p (fs w) with
                      | Returned f1 => set_fs f1 w
                      | Raised _ => w
                      end
                 else w)
    end.
Proof.
  rewrite bind_run, os_path_exists_run. unfold relink_fs.
  destruct (exists_fs (fs w) p).
  - rewrite bind_run. unfold os_remove, update_fs.
    destruct (remove_fs p (fs w)) as [f1|e]; [|done].
    rewrite bind_run. unfold os_symlink, update_fs. simpl.
    by destruct (symlink_fs t p f1).
  - rewrite bind_run. unfold ret. rewrite bind_run. unfold os_symlink, update_fs.
    by destruct (symlink_fs t p (fs w)).
Qed.

Lemma update_run {A} op (k : io A) w :
  (update_fs op ;;; k) w
  = match op (fs w) with
    | Returned f' => k (set_fs f' w)
    | Raised e => (Raised e, w)
    end.
Proof. rewrite bind_run. unfold update_fs. by destruct (op (fs w)). Qed.

Lemma update_run_last op w :
  update_fs op w
  = match op (fs w) with
    | Returned f' => (Returned tt, set_fs f' w)
    | Raised e => (Raised e, w)
    end.
Proof. reflexivity. Qed.

Lemma environ_run {A} k (kont : string → io A) w :
  (x <- os_environ k ;; kont x) w
  = match environ w !! k with
    | Some v => kont v w
    | None => (Raised (KeyError k), w)
    end.
Proof.
  rewrite bind_run, os_environ_run. unfold getitem. by destruct (environ w !! k).
Qed.

(** The linking step, as a function of the file system. *)
Lemma link_julia_eq cep jep j w cd :
  environ w !! "CONDA_DIR" = Some cd →
  let julia_bin_path := os_path_join (os_path_join jep "bin") "julia" in
  let symlink_path := os_path_join (os_path_join cep "bin") "julia" in
  let jupyter_env_bin_path :=
    os_path_join (os_path_join (os_path_join cd "envs") j) "bin" in
  let jupyter_symlink_path := os_path_join jupyter_env_bin_path "julia" in
  link_julia cep jep j w =
  match makedirs_fs (os_path_join cep "bin") (fs w) with
  | Raised e => (Raised e, w)
  | Returned fa =>
    match relink_fs julia_bin_path symlink_path fa with
    | Raised e => (Raised e, set_fs fa w)
    | Returned fb =>
      match makedirs_fs jupyter_env_bin_path fb with
      | Raised e => (Raised e, set_fs fb w)
      | Returned fc =>
        match relink_fs julia_bin_path jupyter_symlink_path fc with
        | Raised e => (Raised e, set_fs fc w)
        | Returned fd => (Returned tt, set_fs fd w)
        end
      end
    end
  end.
Proof.
  intros Hcd jbp sp jebp jsp. unfold link_julia. fold jbp sp.
  unfold os_makedirs at 1. rewrite update_run.
  destruct (makedirs_fs (os_path_join cep "bin") (fs w)) as [fa|e]; [|done].
  rewrite relink_run. simpl fs.
  destruct (relink_fs jbp sp fa) as [fb|e] eqn:Hb;
    [|by rewrite (relink_fs_raised_world _ _ _ _ _ Hb)].
  rewrite environ_run. simpl environ. rewrite Hcd. fold jebp. fold jsp.
  unfold os_makedirs. rewrite update_run. simpl fs.
  destruct (makedirs_fs jebp fb) as [fc|e]; [|done].
  assert (∀ w0 : world,
    (there <- os_path_exists jsp ;;
     (if there then os_remove jsp else ret tt) ;;; os_symlink jbp jsp) w0
    = (there <- os_path_exists jsp ;;
       (if there then os_remove jsp else ret tt) ;;; os_symlink jbp jsp ;;; ret tt) w0)
    as Hlast.
  { intros w0. unfold bind, ret. rewrite os_path_exists_run.
    destruct (exists_fs (fs w0) jsp).
    - destruct (os_remove jsp w0) as [[[]|] ?]; [|done].
      by destruct (os_symlink jbp jsp _) as [[[]|] ?].
    - by destruct (os_symlink jbp jsp _) as [[[]|] ?]. }
  rewrite Hlast, relink_run. simpl fs.
  destruct (relink_fs jbp jsp fc) as [fd|e] eqn:Hd; [done|].
  by rewrite (relink_fs_raised_world _ _ _ _ _ Hd).
Qed.

Lemma link_julia_run cep jep j w cd :
  environ w !! "CONDA_DIR" = Some cd →
  let julia_bin_path := os_path_join (os_path_join jep "bin") "julia" in
  let symlink_path := os_path_join (os_path_join cep "bin") "julia" in
  let jupyter_env_bin_path :=
    os_path_join (os_path_join (os_path_join cd "envs") j) "bin" in
  let jupyter_symlink_path := os_path_join jupyter_env_bin_path "julia" in
  ∀ w',
  link_julia cep jep j w = (Returned tt, w') ↔
  ∃ fa fb fc fd,
    makedirs_fs (os_path_join cep "bin") (fs w) = Returned fa ∧
    relink_fs julia_bin_path symlink_path fa = Returned fb ∧
    makedirs_fs jupyter_env_bin_path fb = Returned fc ∧
    relink_fs julia_bin_path jupyter_symlink_path fc = Returned fd ∧
    w' = set_fs fd w.
Proof.
  intros Hcd jbp sp jebp jsp w'. rewrite (link_julia_eq cep jep j w cd Hcd).
  fold jbp sp jebp jsp. split.
  - destruct (makedirs_fs (os_path_join cep "bin") (fs w)) as [fa|] eqn:Ha; [|done].
    destruct (relink_fs jbp sp fa) as [fb|] eqn:Hb; [|done].
    destruct (makedirs_fs jebp fb) as [fc|] eqn:Hc; [|done].
    destruct (relink_fs jbp jsp fc) as [fd|] eqn:Hd; [|done].
    intros [= <-]. by exists fa, fb, fc, fd.
  - intros (fa & fb & fc & fd & -> & -> & -> & -> & ->). done.
Qed.

Lemma link_julia_links cep jep j w cd w' :
  environ w !! "CONDA_DIR" = Some cd →
  link_julia cep jep j w = (Returned tt, w') →
  let julia_bin_path := os_path_join (os_path_join jep "bin") "julia" in
  fs w' !! os_path_join (os_path_join cep "bin") "julia" = Some (Symlink julia_bin_path) ∧
  fs w' !! os_path_join (os_path_join (os_path_join (os_path_join cd "envs") j) "bin") "julia"
  = Some (Symlink julia_bin_path).
Proof.
  intros Hcd Hrun jbp.
  apply (link_julia_run cep jep j w cd Hcd) in Hrun
    as (fa & fb & fc & fd & Ha & Hb & Hc & Hd & ->).
  apply relink_fs_returned in Hb, Hd. simpl fs.
  apply makedirs_fs_spec in Hc as (Hadd & _ & _).
  set (sp := os_path_join (os_path_join cep "bin") "julia") in *.
  set (jsp := os_path_join (os_path_join (os_path_join (os_path_join cd "envs") j) "bin")
                "julia") in *.
  clearbody sp jsp.
  split; [|by rewrite Hd, lookup_insert_eq].
  rewrite Hd. destruct (decide (jsp = sp)) as [->|Hne].
  - by rewrite lookup_insert_eq.
  - rewrite lookup_insert_ne, lookup_delete_ne by done.
    apply (adds_dirs_some fb); [done|]. by rewrite Hb, lookup_insert_eq.
Qed.

(** ** The steps of [prepare_julia] on the file system *)

Lemma unpack_julia_run v cep jep w w' :
  unpack_julia v cep jep w = (Returned tt, w') ↔
  ∃ fx fr fm,
    unpack_fs tmp_julia cep (fs w) = Returned fx ∧
    remove_fs tmp_julia fx = Returned fr ∧
    mv_fs (os_path_join cep ("julia-" +:+ v)) jep fr = Returned fm ∧
    w' = set_fs fm w.
Proof.
  unfold unpack_julia, shutil_unpack_archive, os_remove, mv.
  rewrite update_run.
  destruct (unpack_fs tmp_julia cep (fs w)) as [fx|e] eqn:Hx;
    [|split; [done | by intros (?&?&?&?&?)]].
  rewrite update_run. simpl fs.
  destruct (remove_fs tmp_julia fx) as [fr|e] eqn:Hr;
    [|split; [done | intros (?&?&?&[= <-]&?&?); congruence]].
  rewrite update_run_last. simpl fs.
  destruct (mv_fs _ jep fr) as [fm|e] eqn:Hm.
  - split.
    + intros [= <-]. by exists fx, fr, fm.
    + intros (fx0 & fr0 & fm0 & [= <-] & H2 & H3 & ->).
      rewrite Hr in H2. injection H2 as <-. rewrite Hm in H3. by injection H3 as <-.
  - split; [done|]. intros (fx0 & fr0 & fm0 & [= <-] & H2 & H3 & ->).
    rewrite Hr in H2. injection H2 as <-. congruence.
Qed.

Lemma write_startup_run cep jep w w' :
  let julia_startup_dir := os_path_join (os_path_join jep "etc") "julia" in
  let julia_startup_file := os_path_join julia_startup_dir "juliarc.jl" in
  write_startup cep jep w = (Returned tt, w') ↔
  ∃ fa fb,
    makedirs_fs julia_startup_dir (fs w) = Returned fa ∧
    write_fs julia_startup_file (Text (push_directive (os_path_join cep "lib"))) fa
    = Returned fb ∧
    w' = set_fs fb w.
Proof.
  intros dir file. unfold write_startup, os_makedirs, write_text. fold dir. fold file.
  rewrite update_run.
  destruct (makedirs_fs dir (fs w)) as [fa|e] eqn:Ha;
    [|split; [done | by intros (?&?&?&?)]].
  rewrite update_run_last. simpl fs.
  destruct (write_fs file _ fa) as [fb|e] eqn:Hb.
  - split.
    + intros [= <-]. by exists fa, fb.
    + intros (fa0 & fb0 & [= <-] & H2 & ->). rewrite Hb in H2. by injection H2 as <-.
  - split; [done|]. intros (fa0 & fb0 & [= <-] & H2 & ->). congruence.
Qed.

Lemma prepare_julia_returned v c j w w' cd :
  environ w !! "CONDA_DIR" = Some cd →
  prepare_julia v c j w = (Returned tt, w') →
  let conda_env_path := os_path_join (os_path_join cd "envs") c in
  let julia_env_path := os_path_join conda_env_path "julia" in
  ∃ w1 w2 pkg f3,
    unpack_julia v conda_env_path julia_env_path w = (Returned tt, w1) ∧
    link_julia conda_env_path julia_env_path j w1 = (Returned tt, w2) ∧
    environ w !! "JULIA_PKGDIR" = Some pkg ∧
    makedirs_fs pkg (fs w2) = Returned f3 ∧
    write_startup conda_env_path julia_env_path (set_fs f3 w2) = (Returned tt, w') ∧
    environ w1 = environ w ∧ environ w2 = environ w.
Proof.
  intros Hcd Hrun cep jep. rewrite (prepare_julia_unfold _ _ _ _ _ Hcd) in Hrun.
  cbv zeta in Hrun. fold cep in Hrun. fold jep in Hrun.
  apply bind_returned in Hrun as ([] & w1 & H1 & Hrun).
  apply bind_returned in Hrun as ([] & w2 & H2 & Hrun).
  pose proof (only_fs_environ_eq _ w (only_fs_unpack_julia v cep jep)) as He1.
  pose proof (only_fs_environ_eq _ w1 (only_fs_link_julia cep jep j)) as He2.
  rewrite H1 in He1. rewrite H2 in He2. simpl in He1, He2.
  rewrite environ_run in Hrun.
  destruct (environ w2 !! "JULIA_PKGDIR") as [pkg|] eqn:Hpkg; [|done].
  unfold os_makedirs in Hrun. rewrite update_run in Hrun.
  destruct (makedirs_fs pkg (fs w2)) as [f3|e] eqn:H3; [|done].
  exists w1, w2, pkg, f3. repeat split; try done; congruence.
Qed.



(** ** The startup file *)

Lemma isdir_insert_file (f : gmap string node) r d p :
  (∀ t, f !! r ≠ Some (Symlink t)) → f !! r ≠ Some Dir →
  isdir f p = true → isdir (<[r := File d]> f) p = true.
Proof.
  intros Hl Hd. unfold isdir, stat. rewrite resolve_insert_file by done.
  destruct (resolve SYMLOOP_MAX f p) as [r0|]; [|done].
  destruct (decide (r = r0)) as [->|Hne].
  - by destruct (f !! r0) as [[| |]|].
  - by rewrite lookup_insert_ne.
Qed.

Lemma count_char_app c s1 s2 :
  count_char c (s1 +:+ s2) = count_char c s1 + count_char c s2.
Proof. induction s1 as [|c' s1 IH]; simpl; [done|]. rewrite IH. lia. Qed.

Lemma write_startup_twice cep jep w w1 :
  write_startup cep jep w = (Returned tt, w1) →
  write_startup cep jep w1 = (Returned tt, w1).
Proof.
  intros (fa & fb & Ha & Hb & ->)%write_startup_run.
  apply write_startup_run. simpl fs.
  pose proof Hb as (r & Hres & Hnd & ->)%write_fs_returned.
  pose proof (resolve_not_link _ _ _ _ Hres) as Hnl.
  apply makedirs_fs_spec in Ha as (_ & Hd & Hall).
  exists (<[r := File (Text (push_directive (os_path_join cep "lib")))]> fa),
         (<[r := File (Text (push_directive (os_path_join cep "lib")))]> fa).
  split; [|split; [|done]].
  - apply makedirs_fs_noop; [by apply isdir_insert_file|].
    eapply Forall_impl; [exact Hall|]. intros q Hq. by apply isdir_insert_file.
  - apply write_fs_returned. exists r. rewrite resolve_insert_file by done.
    split; [done|]. rewrite lookup_insert_eq. split; [done|].
    by rewrite insert_insert_eq.
Qed.



(** ** Replacing a link that dangles *)

(** A dangling link is invisible to [os.path.exists], so it is not removed,
    and [os.symlink] raises. *)
Lemma relink_fs_dangling t p f old :
  f !! p = Some (Symlink old) → exists_fs f p = false →
  relink_fs t p f = Raised (FileExistsError p).
Proof.
  intros Hp He. unfold relink_fs, symlink_fs. by rewrite He, Hp.
Qed.

(** With the directories in place and both links resolving, running the
    linking step again succeeds and changes nothing. *)
Lemma link_julia_rerun cep jep j w w1 cd :
  environ w !! "CONDA_DIR" = Some cd →
  link_julia cep jep j w = (Returned tt, w1) →
  let bin := os_path_join cep "bin" in
  let jupyter_bin := os_path_join (os_path_join (os_path_join cd "envs") j) "bin" in
  isdir (fs w1) bin = true →
  Forall (fun q => isdir (fs w1) q = true) (ancestors bin) →
  isdir (fs w1) jupyter_bin = true →
  Forall (fun q => isdir (fs w1) q = true) (ancestors jupyter_bin) →
  exists_fs (fs w1) (os_path_join bin "julia") = true →
  exists_fs (fs w1) (os_path_join jupyter_bin "julia") = true →
  link_julia cep jep j w1 = (Returned tt, w1).
Proof.
  intros Hcd Hrun bin jbin Hd1 Ha1 Hd2 Ha2 He1 He2.
  destruct (link_julia_links _ _ _ _ _ _ Hcd Hrun) as [Hsp Hjsp].
  fold bin in Hsp. fold jbin in Hjsp.
  assert (environ w1 !! "CONDA_DIR" = Some cd) as Hcd1.
  { pose proof (only_fs_environ_eq _ w (only_fs_link_julia cep jep j)) as He.
    rewrite Hrun in He. simpl in He. by rewrite He. }
  assert (∀ p t, fs w1 !! p = Some (Symlink t) → exists_fs (fs w1) p = true →
                 relink_fs t p (fs w1) = Returned (fs w1)) as Hre.
  { intros p t Hp He. unfold relink_fs, remove_fs, symlink_fs.
    rewrite He, Hp, lookup_delete_eq. f_equal.
    rewrite insert_delete_eq. by apply insert_id. }
  apply (link_julia_run cep jep j w1 cd Hcd1).
  exists (fs w1), (fs w1), (fs w1), (fs w1).
  repeat split; try (by apply makedirs_fs_noop); try (by apply Hre).
  by rewrite set_fs_id.
Qed.

(** C2: the linking step on an image whose jupyter environment holds a
    dangling link.  [os.path.exists] answers [False] for the link, so it is
    not removed, [os.symlink] raises [FileExistsError], and the script stops
    with the stale link still in place. *)
Theorem link_step_keeps_dangling_link :
  fs stale_link_world !! "/opt/conda/envs/jupyter/bin/julia"
  = Some (Symlink "/opt/julia-1.8.5/bin/julia") ∧
  exists_fs (fs stale_link_world) "/opt/conda/envs/jupyter/bin/julia" = false ∧
  fst (main stale_link_world)
  = Raised (FileExistsError "/opt/conda/envs/jupyter/bin/julia") ∧
  fs (snd (main stale_link_world)) !! "/opt/conda/envs/jupyter/bin/julia"
  = Some (Symlink "/opt/julia-1.8.5/bin/julia") ∧
  fs (snd (main stale_link_world)) !! "/opt/conda/envs/julia-env/bin/julia"
  = Some (Symlink "/opt/conda/envs/julia-env/julia/bin/julia").
Proof. repeat split; by vm_compute. Qed.

(** ** Failures end the script *)

Lemma main_after_download w u v w1 :
  get_latest_julia_url w = (Returned (u, v), w) →
  download_julia u w = (Returned tt, w1) →
  main w = prepare_julia v "julia-env" "jupyter" w1 ∧ environ w1 = environ w.
Proof.
  intros Hg Hd. split.
  - unfold main. rewrite bind_run, Hg. simpl. by rewrite bind_run, Hd.
  - pose proof (only_fs_environ_eq _ w (only_fs_download u)) as He.
    by rewrite Hd in He.
Qed.

Lemma unpack_julia_environ v cep jep w w1 :
  unpack_julia v cep jep w = (Returned tt, w1) → environ w1 = environ w.
Proof.
  intros H. pose proof (only_fs_environ_eq _ w (only_fs_unpack_julia v cep jep)) as He.
  by rewrite H in He.
Qed.



(** ** Path strings *)

Lemma app_cons (c : ascii) (a b : string) : String c a +:+ b = String c (a +:+ b).
Proof. reflexivity. Qed.

Lemma app_nil (b : string) : EmptyString +:+ b = b.
Proof. reflexivity. Qed.

Lemma app_assoc_s (a b c : string) : (a +:+ b) +:+ c = a +:+ (b +:+ c).
Proof.
  induction a as [|x a IH]; [done|]. by rewrite !app_cons, IH.
Qed.

Lemma app_empty_r (a : string) : a +:+ EmptyString = a.
Proof.
  induction a as [|x a IH]; [done|]. by rewrite app_cons, IH.
Qed.

Lemma prefix_spec (s1 s2 : string) :
  String.prefix s1 s2 = true ↔ ∃ r, s2 = s1 +:+ r.
Proof.
  revert s2. induction s1 as [|a s1 IH]; intros s2.
  - destruct s2; simpl; split; eauto.
  - destruct s2 as [|b s2]; simpl.
    + split; [discriminate | by intros [r ?]].
    + destruct (ascii_dec a b) as [->|Hne].
      * rewrite IH. split; intros [r Hr]; exists r.
        -- by rewrite Hr, app_cons.
        -- rewrite app_cons in Hr. congruence.
      * split; [discriminate|]. intros [r Hr]. rewrite app_cons in Hr. congruence.
Qed.

Lemma prefix_app (s r : string) : String.prefix s (s +:+ r) = true.
Proof. apply prefix_spec. by exists r. Qed.

Lemma string_drop_app (s t : string) : string_drop (String.length s) (s +:+ t) = t.
Proof.
  induction s as [|a s IH]; [by destruct t|]. rewrite app_cons. exact IH.
Qed.

Lemma at_or_under_spec d k :
  at_or_under d k = true ↔ ∃ s, k = d +:+ s ∧ below s.
Proof.
  unfold at_or_under, below. rewrite orb_true_iff, String.eqb_eq, prefix_spec. split.
  - intros [->|[r ->]].
    + exists EmptyString. by rewrite app_empty_r; auto.
    + exists ("/" +:+ r). rewrite app_assoc_s. split; [done|]. right. apply prefix_app.
  - intros (s & -> & [->|[r ->]%prefix_spec]).
    + left. apply app_empty_r.
    + right. exists r. by rewrite app_assoc_s.
Qed.

Lemma at_or_under_app d s : below s → at_or_under d (d +:+ s) = true.
Proof. intros Hs. apply at_or_under_spec. eauto. Qed.

Lemma contains_prefix (sub s : string) :
  String.prefix sub s = true → contains sub s = true.
Proof. intros H. destruct s; cbn [contains]; by rewrite H. Qed.

Lemma contains_app (sub x y : string) : contains sub (x +:+ (sub +:+ y)) = true.
Proof.
  induction x as [|a x IH].
  - rewrite app_nil. apply contains_prefix, prefix_app.
  - rewrite app_cons. cbn [contains]. rewrite IH. apply orb_true_r.
Qed.

Lemma prefix_app_overlap (a x y : string) :
  String.prefix a (x +:+ y) = true →
  String.prefix a x = true ∨ overlap a y = true.
Proof.
  revert a. induction x as [|c x IH]; intros a.
  - rewrite app_nil. destruct a as [|c' a]; [by left|].
    intros H. right. simpl. by rewrite H.
  - rewrite app_cons. destruct a as [|c' a]; [by left|]. simpl.
    destruct (ascii_dec c' c) as [->|Hne]; [|discriminate].
    intros [H|H]%IH; [by left|]. right.
    destruct (String.prefix (String c a) y); [done | exact H].
Qed.

Lemma ancestors_from_spec pre b s q :
  q ∈ ancestors_from pre b s → ∃ rest, pre +:+ s = q +:+ ("/" +:+ rest).
Proof.
  revert pre b. induction s as [|c s IH]; intros pre b; simpl.
  - by intros ?%elem_of_nil.
  - intros [Hq|Hq]%elem_of_app.
    + destruct (Ascii.eqb_spec c slash) as [->|]; [|by apply elem_of_nil in Hq].
      destruct b; simpl in Hq; [by apply elem_of_nil in Hq|].
      apply list_elem_of_singleton in Hq as ->. by exists s.
    + apply IH in Hq as [rest Hrest]. exists rest.
      rewrite <- Hrest. by rewrite app_assoc_s, app_cons, app_nil.
Qed.

Lemma ancestors_prefix p q : q ∈ ancestors p → String.prefix q p = true.
Proof.
  intros [rest Hrest]%ancestors_from_spec. rewrite app_nil in Hrest.
  apply prefix_spec. eauto.
Qed.

Lemma os_path_join_rel a b :
  String.prefix "/" b = false → os_path_join a b = a +:+ (sep a +:+ b).
Proof.
  intros Hb. unfold os_path_join, sep. rewrite Hb.
  by destruct (String.eqb a EmptyString || ends_with_slash a).
Qed.

Lemma ends_with_slash_app a c b :
  ends_with_slash (a +:+ String c b) = ends_with_slash (String c b).
Proof.
  induction a as [|x a IH]; [done|]. rewrite app_cons.
  destruct (a +:+ String c b) eqn:E; [by destruct a|].
  rewrite <- IH. reflexivity.
Qed.

Lemma sep_app a c b :
  ends_with_slash (String c b) = false → sep (a +:+ String c b) = "/".
Proof.
  intros H. unfold sep. rewrite ends_with_slash_app, H.
  by destruct a.
Qed.

(** ** Renaming a tree *)

Lemma rekey_under src dest s v : rekey src dest (src +:+ s, v) = (dest +:+ s, v).
Proof. unfold rekey. simpl. by rewrite string_drop_app. Qed.

Lemma moved_elem src dest (f : gmap string node) k v :
  (k, v) ∈ rekey src dest <$> map_to_list (filter (fun kv => at_or_under src (fst kv) = true) f)
  ↔ ∃ s, below s ∧ k = dest +:+ s ∧ f !! (src +:+ s) = Some v.
Proof.
  rewrite list_elem_of_fmap. split.
  - intros ([k0 v0] & Hk & [Hf Hu]%elem_of_map_to_list%map_lookup_filter_Some).
    simpl in Hu. apply at_or_under_spec in Hu as (s & -> & Hs).
    rewrite rekey_under in Hk. injection Hk as -> ->. eauto.
  - intros (s & Hs & -> & Hf). exists (src +:+ s, v).
    rewrite rekey_under. split; [done|].
    apply elem_of_map_to_list, map_lookup_filter_Some. split; [done|].
    by apply at_or_under_app.
Qed.

Lemma moved_nodup src dest (f : gmap string node) :
  NoDup (rekey src dest <$>
           map_to_list (filter (fun kv => at_or_under src (fst kv) = true) f)).*1.
Proof.
  rewrite <- list_fmap_compose.
  assert (∀ l : list (string * node),
             (fst ∘ rekey src dest) <$> l
             = (fun k => dest +:+ string_drop (String.length src) k) <$> l.*1) as ->.
  { intros l. rewrite <- list_fmap_compose. by apply list_fmap_ext. }
  apply NoDup_fmap_2_strong; [|apply NoDup_fst_map_to_list].
  intros k1 k2 Hk1 Hk2 Heq.
  apply list_elem_of_fmap in Hk1 as ([k1' v1] & -> & [_ Hu1]%elem_of_map_to_list%map_lookup_filter_Some).
  apply list_elem_of_fmap in Hk2 as ([k2' v2] & -> & [_ Hu2]%elem_of_map_to_list%map_lookup_filter_Some).
  simpl in *. apply at_or_under_spec in Hu1 as (s1 & -> & _).
  apply at_or_under_spec in Hu2 as (s2 & -> & _).
  rewrite !string_drop_app in Heq. by apply (inj (String.app dest)) in Heq as ->.
Qed.

Lemma rename_lookup_moved src dest (f : gmap string node) s :
  below s → rename_fs src dest f !! (dest +:+ s) = f !! (src +:+ s).
Proof.
  intros Hs. unfold rename_fs. rewrite lookup_union_r.
  - destruct (f !! (src +:+ s)) as [v|] eqn:Hf.
    + apply elem_of_list_to_map_1; [apply moved_nodup|].
      apply moved_elem. eauto.
    + apply not_elem_of_list_to_map_1. intros Hin.
      apply list_elem_of_fmap in Hin as ([k v] & Hk & Hin). simpl in Hk. subst k.
      apply moved_elem in Hin as (s' & _ & Heq & Hf').
      apply (inj (String.app dest)) in Heq as ->. congruence.
  - apply map_lookup_filter_None. right. intros v _ [_ Hd]. simpl in Hd.
    by rewrite at_or_under_app in Hd.
Qed.

Lemma rename_lookup_not_dest src dest (f : gmap string node) k :
  at_or_under dest k = false →
  rename_fs src dest f !! k = if at_or_under src k then None else f !! k.
Proof.
  intros Hd. unfold rename_fs.
  assert ((list_to_map (rekey src dest <$>
            map_to_list (filter (fun kv => at_or_under src (fst kv) = true) f))
            : gmap string node)
          !! k = None) as Hmoved.
  { apply not_elem_of_list_to_map_1. intros Hin.
    apply list_elem_of_fmap in Hin as ([k' v] & Hk & Hin). simpl in Hk. subst k'.
    apply moved_elem in Hin as (s' & Hs' & -> & _).
    by rewrite at_or_under_app in Hd. }
  rewrite lookup_union, Hmoved, (right_id None _).
  destruct (at_or_under src k) eqn:Hsrc.
  - apply map_lookup_filter_None. right. intros v _ [Hs _]. simpl in Hs. congruence.
  - destruct (f !! k) as [v|] eqn:Hf.
    + by apply map_lookup_filter_Some.
    + apply map_lookup_filter_None. by left.
Qed.

Lemma rename_lookup_some src dest (f : gmap string node) k n :
  rename_fs src dest f !! k = Some n → ∃ k', f !! k' = Some n.
Proof.
  unfold rename_fs. intros [H|[_ H]]%lookup_union_Some_raw.
  - apply map_lookup_filter_Some in H as [H _]. eauto.
  - apply elem_of_list_to_map_2, moved_elem in H as (s & _ & _ & H). eauto.
Qed.

Lemma mv_fs_returned src dst f f' :
  mv_fs src dst f = Returned f' →
  f' = rename_fs src (mv_dest src dst f) f ∧
  at_or_under src (mv_dest src dst f) = false ∧ is_Some (f !! src).
Proof.
  unfold mv_fs. generalize (mv_dest src dst f). intros dest.
  destruct (f !! src) as [n|] eqn:Hsrc; [|discriminate].
  intros H.
  destruct (at_or_under src dest) eqn:Hu; [discriminate|].
  assert (f' = rename_fs src dest f) as ->; [|by eauto].
  destruct (f !! dest) as [[| |]|]; destruct n; try discriminate;
    try (by injection H as <-).
  destruct (has_children f dest); [discriminate | by injection H as <-].
Qed.

(** ** The installed tree *)

Lemma resolve_delete n (f : gmap string node) k p r x :
  resolve n (delete k f) p = Some r → delete k f !! r = Some x →
  resolve n f p = Some r.
Proof.
  revert p. induction n as [|n IH]; intros p; simpl;
    (destruct (decide (k = p)) as [->|Hne];
     [rewrite lookup_delete_eq; intros [= <-]; by rewrite lookup_delete_eq
     |rewrite lookup_delete_ne by done]);
    destruct (f !! p) as [[| |t]|]; try done.
  apply IH.
Qed.

Lemma isdir_delete (f : gmap string node) k p :
  isdir f p = false → isdir (delete k f) p = false.
Proof.
  intros Hf. destruct (isdir (delete k f) p) eqn:Hd; [|done].
  unfold isdir, stat in *.
  destruct (resolve SYMLOOP_MAX (delete k f) p) as [r|] eqn:Hr; [|done].
  destruct (delete k f !! r) as [x|] eqn:Hx; [|done].
  rewrite (resolve_delete _ _ _ _ _ _ Hr Hx) in Hf.
  destruct (decide (k = r)) as [->|Hne].
  - by rewrite lookup_delete_eq in Hx.
  - rewrite lookup_delete_ne in Hx by done. rewrite Hx in Hf.
    destruct x; congruence.
Qed.

Lemma remove_fs_returned p f f' :
  remove_fs p f = Returned f' → f' = delete p f ∧ is_Some (f !! p).
Proof.
  unfold remove_fs. destruct (f !! p) as [[| |]|]; try discriminate;
    intros [= <-]; eauto.
Qed.

Lemma julia_src_not_tmp cep v s :
  os_path_join cep ("julia-" +:+ v) +:+ s ≠ tmp_julia.
Proof.
  rewrite os_path_join_rel by done.
  rewrite !app_assoc_s. intros H.
  pose proof (contains_app "julia-" (cep +:+ sep cep) (v +:+ s)) as Hc.
  rewrite !app_assoc_s in Hc. rewrite H in Hc. by vm_compute in Hc.
Qed.

Section kept.
Variables (q : string) (n : node) (jbp directive : string).

Lemma held_adds_dirs f f' :
  adds_dirs f f' → held q n jbp directive f → held q n jbp directive f'.
Proof.
  intros Ha [H|[H|H]]; [left|right; left|right; right];
    by apply (adds_dirs_some f).
Qed.

Lemma held_makedirs p f f' :
  makedirs_fs p f = Returned f' →
  held q n jbp directive f → held q n jbp directive f'.
Proof. intros (Ha & _)%makedirs_fs_spec. by apply held_adds_dirs. Qed.

Lemma held_relink p f f' :
  relink_fs jbp p f = Returned f' →
  held q n jbp directive f → held q n jbp directive f'.
Proof.
  intros ->%relink_fs_returned H. unfold held.
  destruct (decide (p = q)) as [->|Hne].
  - right. left. by rewrite lookup_insert_eq.
  - by rewrite lookup_insert_ne, lookup_delete_ne.
Qed.

Lemma held_write p f f' :
  write_fs p (Text directive) f = Returned f' →
  held q n jbp directive f → held q n jbp directive f'.
Proof.
  intros (r & _ & _ & ->)%write_fs_returned H. unfold held.
  destruct (decide (r = q)) as [->|Hne].
  - right. right. by rewrite lookup_insert_eq.
  - by rewrite lookup_insert_ne.
Qed.
End kept.

(** C7, amended: when no directory is at the [julia] path of the conda
    environment once the archive is extracted, every successful run of
    [prepare_julia] leaves the tree that extraction put at [julia-VERSION]
    below [julia]: each of its entries is found at the same relative path,
    unless a later step of the run wrote that path (a link to the binary,
    the startup file). *)
Theorem julia_tree_is_renamed v c j w w' cd fx :
  environ w !! "CONDA_DIR" = Some cd →
  let conda_env_path := os_path_join (os_path_join cd "envs") c in
  let julia_env_path := os_path_join conda_env_path "julia" in
  unpack_fs tmp_julia conda_env_path (fs w) = Returned fx →
  isdir fx julia_env_path = false →
  prepare_julia v c j w = (Returned tt, w') →
  julia_tree_at fx (fs w')
    (os_path_join conda_env_path ("julia-" +:+ v)) julia_env_path
    (os_path_join (os_path_join julia_env_path "bin") "julia")
    (push_directive (os_path_join conda_env_path "lib")).
Proof.
  intros Hcd cep jep Hx Hnd Hrun.
  destruct (prepare_julia_returned _ _ _ _ _ _ Hcd Hrun)
    as (w1 & w2 & pkg & f3 & H1 & H2 & Hpkg & H3 & H4 & He1 & He2).
  fold cep in H1, H2, H4. fold jep in H1, H2, H4.
  apply unpack_julia_run in H1 as (fx' & fr & fm & Hx' & Hr & Hm & ->).
  rewrite Hx in Hx'. injection Hx' as <-.
  apply remove_fs_returned in Hr as [-> _].
  apply mv_fs_returned in Hm as (-> & _ & Hsrc).
  unfold mv_dest in *. rewrite (isdir_delete _ _ _ Hnd) in *.
  rewrite <- He1 in Hcd.
  apply (link_julia_run cep jep j _ cd Hcd) in H2
    as (fa & fb & fc & fd & Ha & Hb & Hc & Hd & ->).
  apply write_startup_run in H4 as (fa' & fb' & Ha' & Hb' & ->).
  simpl fs in *. split.
  - destruct Hsrc as [x Hsrc]. exists x.
    rewrite lookup_delete_ne in Hsrc; [done|].
    intros E. apply (julia_src_not_tmp cep v EmptyString). by rewrite app_empty_r.
  - intros s n Hs Hn.
    eapply held_write; [exact Hb'|]. eapply held_makedirs; [exact Ha'|].
    eapply held_makedirs; [exact H3|]. eapply held_relink; [exact Hd|].
    eapply held_makedirs; [exact Hc|]. eapply held_relink; [exact Hb|].
    eapply held_makedirs; [exact Ha|]. left.
    rewrite rename_lookup_moved by done.
    rewrite lookup_delete_ne; [done|]. intros E. by apply (julia_src_not_tmp cep v s).
Qed.


Lemma julia_tree_is_renamed_witness :
  julia_tree_at example_unpacked
    (fs (snd (prepare_julia "1.9.0" "julia-env" "jupyter" example_downloaded)))
    (os_path_join (os_path_join (os_path_join "/opt/conda" "envs") "julia-env")
       ("julia-" +:+ "1.9.0"))
    (os_path_join (os_path_join (os_path_join "/opt/conda" "envs") "julia-env") "julia")
    (os_path_join
       (os_path_join
          (os_path_join (os_path_join (os_path_join "/opt/conda" "envs") "julia-env") "julia")
          "bin") "julia")
    (push_directive
       (os_path_join (os_path_join (os_path_join "/opt/conda" "envs") "julia-env") "lib")).
Proof.
  apply (julia_tree_is_renamed "1.9.0" "julia-env" "jupyter" example_downloaded
           (snd (prepare_julia "1.9.0" "julia-env" "jupyter" example_downloaded))
           "/opt/conda" example_unpacked).
  - reflexivity.
  - vm_compute; exact eq_refl.
  - vm_compute; exact eq_refl.
  - vm_compute; exact eq_refl.
Defined.

(** With a directory already at the [julia] path, a successful run leaves the
    unpacked tree one level further down, and the [julia] path itself
    without the binary. *)
Lemma julia_tree_nested_on_reinstall :
  environ reinstall_world !! "CONDA_DIR" = Some "/opt/conda" ∧
  unpack_fs tmp_julia (os_path_join (os_path_join "/opt/conda" "envs") "julia-env")
    (fs reinstall_world)
  = Returned reinstall_unpacked ∧
  prepare_julia "1.9.0" "julia-env" "jupyter" reinstall_world
  = (Returned tt, reinstalled) ∧
  fs reinstalled !! "/opt/conda/envs/julia-env/julia/julia-1.9.0/bin/julia"
  = Some (File (Text "ELF")) ∧
  ¬ julia_tree_at reinstall_unpacked (fs reinstalled)
      (os_path_join (os_path_join (os_path_join "/opt/conda" "envs") "julia-env")
         ("julia-" +:+ "1.9.0"))
      (os_path_join (os_path_join (os_path_join "/opt/conda" "envs") "julia-env") "julia")
      (os_path_join
         (os_path_join
            (os_path_join (os_path_join (os_path_join "/opt/conda" "envs") "julia-env")
               "julia") "bin") "julia")
      (push_directive
         (os_path_join (os_path_join (os_path_join "/opt/conda" "envs") "julia-env")
            "lib")).
Proof.
  split; [reflexivity|]. split; [vm_compute; exact eq_refl|].
  split; [vm_compute; exact eq_refl|]. split; [vm_compute; exact eq_refl|].
  intros [_ H]. specialize (H "/bin/julia" (File (Text "ELF"))).
  destruct H as [H|[H|H]].
  - right. reflexivity.
  - vm_compute. exact eq_refl.
  - vm_compute in H. discriminate H.
  - vm_compute in H. discriminate H.
  - vm_compute in H. discriminate H.
Qed.

(** ** Where the script writes *)

Lemma is_suffix_app (x y : string) : is_suffix y (x +:+ y) = true.
Proof.
  induction x as [|a x IH].
  - rewrite app_nil. destruct y; cbn [is_suffix]; by rewrite String.eqb_refl.
  - rewrite app_cons. cbn [is_suffix]. rewrite IH. apply orb_true_r.
Qed.

Lemma join_ends a b : ∃ x, os_path_join a b = x +:+ b.
Proof.
  unfold os_path_join. destruct (String.prefix "/" b).
  - by exists EmptyString.
  - destruct (_ || _); [by exists a|]. exists (a +:+ "/"). by rewrite app_assoc_s.
Qed.

Lemma prefix_slash_cons c s :
  String.prefix "/" (String c s) = Ascii.eqb c slash.
Proof.
  change (String.prefix "/" (String c s))
    with (match ascii_dec "/" c with
          | left _ => String.prefix EmptyString s
          | right _ => false
          end).
  destruct (ascii_dec "/" c) as [<-|Hne].
  - by destruct s.
  - symmetry. apply Ascii.eqb_neq. unfold slash. congruence.
Qed.

Lemma no_slash_snoc cur c :
  String.prefix "/" cur = false → Ascii.eqb c slash = false →
  String.prefix "/" (cur +:+ String c EmptyString) = false.
Proof.
  intros Hcur Hc. destruct cur as [|c0 cur].
  - by rewrite app_nil, prefix_slash_cons.
  - rewrite app_cons, prefix_slash_cons. by rewrite prefix_slash_cons in Hcur.
Qed.

Lemma basename_from_rel cur last s :
  String.prefix "/" cur = false → String.prefix "/" last = false →
  String.prefix "/" (basename_from cur last s) = false.
Proof.
  revert cur last. induction s as [|c s IH]; intros cur last Hc Hl; simpl.
  - by destruct (String.eqb cur EmptyString).
  - destruct (Ascii.eqb c slash) eqn:E.
    + apply IH; [done|]. by destruct (String.eqb cur EmptyString).
    + apply IH; [|done]. by apply no_slash_snoc.
Qed.

Lemma basename_rel p : String.prefix "/" (basename p) = false.
Proof. by apply basename_from_rel. Qed.

(** [mv] into the [julia] path never lands on the archive path. *)
Lemma dest_not_over_tmp a src (f : gmap string node) :
  at_or_under (mv_dest src (os_path_join a "julia") f) tmp_julia = false.
Proof.
  destruct (at_or_under _ tmp_julia) eqn:Hu; [|done]. exfalso.
  apply at_or_under_spec in Hu as (s & Hs & Hb).
  destruct (join_ends a "julia") as [x Hx]. unfold mv_dest in Hs. rewrite Hx in Hs.
  assert (contains "julia/" tmp_julia = true → False) as Hno by by vm_compute.
  assert (is_suffix "julia" tmp_julia = true → False) as Hns by by vm_compute.
  destruct (isdir f (x +:+ "julia")).
  - rewrite os_path_join_rel in Hs by apply basename_rel.
    rewrite (sep_app x "j" "ulia") in Hs by done.
    apply Hno. rewrite Hs, !app_assoc_s.
    apply (contains_app "julia/" x (basename src +:+ s)).
  - destruct Hb as [->|[r ->]%prefix_spec].
    + apply Hns. rewrite Hs, app_empty_r. apply is_suffix_app.
    + apply Hno. rewrite Hs, !app_assoc_s. apply (contains_app "julia/" x r).
Qed.

Lemma join_julia_not_tmp a : os_path_join a "julia" ≠ tmp_julia.
Proof.
  destruct (join_ends a "julia") as [x ->]. intros H.
  pose proof (is_suffix_app x "julia") as Hs. rewrite H in Hs. by vm_compute in Hs.
Qed.

Lemma join_juliarc_not_tmp a : os_path_join a "juliarc.jl" ≠ tmp_julia.
Proof.
  destruct (join_ends a "juliarc.jl") as [x ->]. intros H.
  pose proof (is_suffix_app x "juliarc.jl") as Hs. rewrite H in Hs. by vm_compute in Hs.
Qed.

(** ** What [os.makedirs] can create *)

Lemma mkdir_missing_frame q f f' k :
  mkdir_missing q f = Returned f' → k ≠ q → f' !! k = f !! k.
Proof.
  unfold mkdir_missing. intros H Hk.
  destruct (stat f q) as [[| |]|]; try discriminate; [by injection H as <-|].
  destruct (f !! q); [discriminate|]. injection H as <-. by rewrite lookup_insert_ne.
Qed.

Lemma mkdirs_frame qs f f' k :
  mkdirs qs f = Returned f' → k ∉ qs → f' !! k = f !! k.
Proof.
  revert f. induction qs as [|q qs IH]; intros f; simpl.
  - by intros [= <-].
  - destruct (mkdir_missing q f) as [f1|] eqn:Hm; [|discriminate].
    intros H Hk. apply not_elem_of_cons in Hk as [Hkq Hk].
    rewrite (IH _ H Hk). by eapply mkdir_missing_frame.
Qed.

Lemma makedirs_fs_frame p f f' k :
  makedirs_fs p f = Returned f' → String.prefix k p = false → f' !! k = f !! k.
Proof.
  unfold makedirs_fs. intros H Hk.
  destruct (mkdirs (ancestors p) f) as [f1|] eqn:Hm; [|discriminate].
  assert (f1 !! k = f !! k) as <-.
  { eapply mkdirs_frame; [exact Hm|]. intros Hin%ancestors_prefix. congruence. }
  assert (k ≠ p) as Hne.
  { intros ->. pose proof (prefix_app p EmptyString) as Hp.
    rewrite app_empty_r in Hp. congruence. }
  destruct (isdir f1 p); [by injection H as <-|].
  destruct (f1 !! p); [discriminate|]. injection H as <-. by rewrite lookup_insert_ne.
Qed.

(** ** Links to the archive path *)

Lemma resolve_target n (f : gmap string node) p r :
  resolve n f p = Some r → r = p ∨ ∃ q, f !! q = Some (Symlink r).
Proof.
  revert p. induction n as [|n IH]; intros p; simpl.
  - destruct (f !! p) as [[| |t]|]; intros [= <-]; by left.
  - destruct (f !! p) as [[| |t]|] eqn:Hp; try (intros [= <-]; by left).
    intros [->|Hq]%IH; [right; eauto | by right].
Qed.

Lemma no_link_insert t (f : gmap string node) k x :
  x ≠ Symlink t → no_link_to t f → no_link_to t (<[k := x]> f).
Proof.
  intros Hx Hf q. destruct (decide (k = q)) as [->|Hne].
  - rewrite lookup_insert_eq. congruence.
  - rewrite lookup_insert_ne by done. apply Hf.
Qed.

Lemma no_link_delete t (f : gmap string node) k :
  no_link_to t f → no_link_to t (delete k f).
Proof.
  intros Hf q. destruct (decide (k = q)) as [->|Hne].
  - by rewrite lookup_delete_eq.
  - rewrite lookup_delete_ne by done. apply Hf.
Qed.

Lemma no_link_adds_dirs t f f' : adds_dirs f f' → no_link_to t f → no_link_to t f'.
Proof.
  intros Ha Hf q. destruct (Ha q) as [->|[_ ->]]; [apply Hf | done].
Qed.

Lemma no_link_write t p d f f' :
  write_fs p d f = Returned f' → no_link_to t f → no_link_to t f'.
Proof. intros (r & _ & _ & ->)%write_fs_returned. by apply no_link_insert. Qed.

Lemma no_link_makedirs t p f f' :
  makedirs_fs p f = Returned f' → no_link_to t f → no_link_to t f'.
Proof. intros (Ha & _)%makedirs_fs_spec. by apply no_link_adds_dirs. Qed.

Lemma no_link_relink t l p f f' :
  l ≠ t → relink_fs l p f = Returned f' → no_link_to t f → no_link_to t f'.
Proof.
  intros Hl ->%relink_fs_returned Hf.
  apply no_link_insert; [congruence|]. by apply no_link_delete.
Qed.

Lemma no_link_rename t src dest f : no_link_to t f → no_link_to t (rename_fs src dest f).
Proof. intros Hf q Hq. apply rename_lookup_some in Hq as [k Hk]. by apply (Hf k). Qed.

Lemma no_link_extract_member t dir nm f f' :
  snd nm ≠ MLink t →
  extract_member dir nm f = Returned f' → no_link_to t f → no_link_to t f'.
Proof.
  intros Hnm. unfold extract_member.
  destruct (mkdirs _ f) as [f1|] eqn:Hm; [|discriminate].
  apply mkdirs_spec in Hm as [Ha _]. intros H Hf.
  pose proof (no_link_adds_dirs t _ _ Ha Hf) as Hf1.
  destruct (snd nm) as [|b|l].
  - destruct (isdir f1 _); [by injection H as <-|].
    destruct (f1 !! _); [discriminate|]. injection H as <-. by apply no_link_insert.
  - by eapply no_link_write.
  - destruct (f1 !! _) as [[| |]|]; try discriminate; injection H as <-;
      apply no_link_insert; congruence.
Qed.

Lemma no_link_extract_all t dir ms f f' :
  Forall (fun nm => snd nm ≠ MLink t) ms →
  extract_all dir ms f = Returned f' → no_link_to t f → no_link_to t f'.
Proof.
  intros Hms. revert f. induction Hms as [|nm ms Hnm _ IH]; intros f; simpl.
  - by intros [= <-].
  - destruct (extract_member dir nm f) as [f1|] eqn:Hm; [|discriminate].
    intros H Hf. apply (IH _ H). by eapply no_link_extract_member.
Qed.

(** ** The paths of a full run *)

Lemma join_after a l x :
  l ≠ EmptyString → ends_with_slash l = false → String.prefix "/" x = false →
  os_path_join (a +:+ l) x = a +:+ (l +:+ ("/" +:+ x)).
Proof.
  intros Hl He Hx. destruct l as [|c b]; [done|].
  rewrite os_path_join_rel by done. by rewrite sep_app, app_assoc_s.
Qed.

Ltac closed_string :=
  first [ vm_compute; reflexivity
        | let H := fresh in intros H; vm_compute in H; discriminate H ].

Lemma conda_env_paths cd :
  let base := cd +:+ sep cd in
  os_path_join (os_path_join (os_path_join cd "envs") "julia-env") "bin"
  = base +:+ "envs/julia-env/bin" ∧
  os_path_join (os_path_join (os_path_join cd "envs") "jupyter") "bin"
  = base +:+ "envs/jupyter/bin" ∧
  os_path_join
    (os_path_join
       (os_path_join (os_path_join (os_path_join cd "envs") "julia-env") "julia") "etc")
    "julia"
  = base +:+ "envs/julia-env/julia/etc/julia".
Proof.
  intros base.
  assert (os_path_join cd "envs" = base +:+ "envs") as ->.
  { rewrite os_path_join_rel by done. unfold base. by rewrite app_assoc_s. }
  repeat split; repeat (rewrite join_after by closed_string); reflexivity.
Qed.

Lemma tmp_not_prefix cd l :
  String.prefix tmp_julia cd = false → overlap tmp_julia l = false →
  String.prefix tmp_julia ((cd +:+ sep cd) +:+ l) = false.
Proof.
  intros Hcd Hl.
  destruct (String.prefix tmp_julia ((cd +:+ sep cd) +:+ l)) eqn:Hp; [|done].
  apply prefix_app_overlap in Hp as [Hp|Hp]; [|congruence].
  apply prefix_app_overlap in Hp as [Hp|Hp]; [congruence|].
  unfold sep in Hp. by destruct (_ || _); vm_compute in Hp.
Qed.

(** ** The archive after the run *)

Lemma download_julia_returned u w w' :
  download_julia u w = (Returned tt, w') ↔
  ∃ d r, remote w u = Some d ∧
         resolve SYMLOOP_MAX (fs w) tmp_julia = Some r ∧
         fs w !! r ≠ Some Dir ∧
         w' = set_fs (<[r := File d]> (fs w)) w.
Proof.
  unfold download_julia, curl. split.
  - destruct (remote w u) as [d|]; [|discriminate].
    destruct (write_fs tmp_julia d (fs w)) as [f'|] eqn:Hw; [|discriminate].
    apply write_fs_returned in Hw as (r & Hr & Hd & ->).
    intros [= <-]. by exists d, r.
  - intros (d & r & -> & Hr & Hd & ->).
    by rewrite (proj2 (write_fs_returned tmp_julia d (fs w) _)
                  (ex_intro _ r (conj Hr (conj Hd eq_refl)))).
Qed.

Lemma rename_keeps_absent src a f :
  f !! tmp_julia = None →
  rename_fs src (mv_dest src (os_path_join a "julia") f) f !! tmp_julia = None.
Proof.
  intros Hf. rewrite rename_lookup_not_dest by apply dest_not_over_tmp.
  by destruct (at_or_under src tmp_julia).
Qed.

Lemma relink_keeps_absent l a f f' :
  relink_fs l (os_path_join a "julia") f = Returned f' →
  f !! tmp_julia = None → f' !! tmp_julia = None.
Proof.
  intros ->%relink_fs_returned Hf.
  pose proof (join_julia_not_tmp a).
  by rewrite lookup_insert_ne, lookup_delete_ne.
Qed.

Lemma write_keeps_absent a d f f' :
  write_fs (os_path_join a "juliarc.jl") d f = Returned f' →
  no_link_to tmp_julia f → f !! tmp_julia = None → f' !! tmp_julia = None.
Proof.
  intros (r & Hr & _ & ->)%write_fs_returned Hn Hf.
  rewrite lookup_insert_ne; [done|]. intros ->.
  apply resolve_target in Hr as [Hr|[q Hq]].
  - by apply (join_juliarc_not_tmp a).
  - by apply (Hn q).
Qed.

Lemma unpack_fs_no_link t tar dir f fx :
  (∀ r ms, resolve SYMLOOP_MAX f tar = Some r → f !! r = Some (File (Tarball ms)) →
           Forall (fun nm => snd nm ≠ MLink t) ms) →
  unpack_fs tar dir f = Returned fx → no_link_to t f → no_link_to t fx.
Proof.
  intros Hms. unfold unpack_fs.
  destruct (resolve SYMLOOP_MAX f tar) as [r|] eqn:Hr; [|discriminate].
  destruct (f !! r) as [[[s|ms]| |]|] eqn:Hf; try discriminate.
  intros H. eapply no_link_extract_all; [|exact H]. by eapply Hms.
Qed.

(** Lines 95-101 leave no archive behind, whether or not [mv] succeeds. *)
Lemma unpack_julia_removes v cep w fx fr o w1 :
  unpack_fs tmp_julia cep (fs w) = Returned fx →
  remove_fs tmp_julia fx = Returned fr →
  unpack_julia v cep (os_path_join cep "julia") w = (o, w1) →
  fr !! tmp_julia = None ∧ fs w1 !! tmp_julia = None.
Proof.
  intros Hx Hr. unfold unpack_julia, shutil_unpack_archive, os_remove, mv.
  rewrite update_run, Hx, update_run. simpl fs. rewrite Hr, update_run_last. simpl fs.
  apply remove_fs_returned in Hr as [-> _].
  assert (delete tmp_julia fx !! tmp_julia = None) as Habs by apply lookup_delete_eq.
  destruct (mv_fs _ _ _) as [fm|e] eqn:Hm; intros [= <- <-]; simpl fs; [|done].
  apply mv_fs_returned in Hm as (-> & _). split; [done|].
  by apply rename_keeps_absent.
Qed.

Lemma main_returned w w' :
  main w = (Returned tt, w') →
  ∃ u v w1, get_latest_julia_url w = (Returned (u, v), w) ∧
            download_julia u w = (Returned tt, w1) ∧
            prepare_julia v "julia-env" "jupyter" w1 = (Returned tt, w').
Proof.
  unfold main. intros H.
  apply bind_returned in H as ([u v] & w0 & Hg & H).
  pose proof (get_latest_world w) as Hw. rewrite Hg in Hw. simpl in Hw. subst w0.
  apply bind_returned in H as ([] & w1 & Hd & H). simpl in *. by exists u, v, w1.
Qed.




(** * Further properties of the script *)

(** ** What [get_latest_julia_url] returns *)

Lemma unify_aarch64_range p a :
  unify_aarch64 p = Returned a →
  (p = "aarch64" ∨ p = "arm64" ∨ p = "x86_64") ∧ (a = "aarch64" ∨ a = "x86_64").
Proof.
  unfold unify_aarch64, getitem, arch_table.
  destruct (_ !! p) as [x|] eqn:Hp; [|discriminate]. intros [= ->].
  apply lookup_insert_Some in Hp as [[<- <-]|[_ Hp]]; [by auto|].
  apply lookup_insert_Some in Hp as [[<- <-]|[_ Hp]]; [by auto|].
  apply lookup_insert_Some in Hp as [[<- <-]|[_ Hp]]; [by auto|].
  by rewrite lookup_empty in Hp.
Qed.

(** X5: [unify_aarch64] answers only "aarch64" or "x86_64", and only for the
    three names of its table; applied to its own answer it returns it
    unchanged. *)
Theorem unify_aarch64_idempotent p a :
  unify_aarch64 p = Returned a →
  (a = "aarch64" ∨ a = "x86_64") ∧ unify_aarch64 a = Returned a.
Proof.
  intros [_ Ha]%unify_aarch64_range. split; [done|].
  by destruct Ha as [-> | ->].
Qed.

Lemma unify_aarch64_idempotent_witness :
  ("aarch64" = "aarch64" ∨ "aarch64" = "x86_64") ∧
  unify_aarch64 "aarch64" = Returned "aarch64".
Proof. apply (unify_aarch64_idempotent "arm64" "aarch64"). reflexivity. Defined.

(** X1: whatever [get_latest_julia_url] returns is the url and the version
    field of a file of the greatest stable entry of the manifest, the first
    in list order whose triplet is the linux-gnu triplet of the machine, and
    the world is as it was. *)
Theorem get_latest_returned w u v w' :
  get_latest_julia_url w = (Returned (u, v), w') →
  w' = w ∧
  ∃ versions latest entry arch vf l1 l2,
    versions_json w = Returned versions ∧
    greatest_stable versions latest ∧
    versions !! latest = Some entry ∧ stable entry = true ∧
    unify_aarch64 (machine w) = Returned arch ∧
    (arch = "aarch64" ∨ arch = "x86_64") ∧
    files entry = (l1 ++ vf :: l2)%list ∧
    triplet vf = arch +:+ "-linux-gnu" ∧
    Forall (fun x => triplet x ≠ arch +:+ "-linux-gnu") l1 ∧
    u = url vf ∧ v = version vf.
Proof.
  intros H. pose proof (get_latest_world w) as Hw. rewrite H in Hw. simpl in Hw.
  split; [done|]. subst w'.
  destruct (versions_json w) as [versions|e] eqn:Hj.
  - destruct (py_max (keys (stable_only versions))) as [latest|e] eqn:Hl.
    + pose proof (latest_is_greatest _ _ Hl) as Hg.
      destruct Hg as [(entry & He & Hs) Hmax].
      rewrite (get_latest_unfold w versions latest entry Hj) in H;
        [|split; by eauto|done].
      unfold pick_file in H.
      destruct (unify_aarch64 (machine w)) as [arch|] eqn:Hu; [|discriminate].
      destruct (first _) as [vf|] eqn:Hf; [|discriminate].
      injection H as <- <-.
      apply matching_first_spec in Hf as (l1 & l2 & Hfl & Ht & Hall).
      exists versions, latest, entry, arch, vf, l1, l2.
      repeat split; try done; try by eauto.
      by apply unify_aarch64_range in Hu as [_ ?].
    + unfold get_latest_julia_url, bind, requests_get_json, lift in H.
      rewrite Hj, Hl in H. discriminate.
  - unfold get_latest_julia_url, bind, requests_get_json in H.
    rewrite Hj in H. discriminate.
Qed.

Lemma get_latest_returned_witness :
  ∃ versions latest entry arch vf l1 l2,
    versions_json example_world = Returned versions ∧
    greatest_stable versions latest ∧
    versions !! latest = Some entry ∧ stable entry = true ∧
    unify_aarch64 (machine example_world) = Returned arch ∧
    (arch = "aarch64" ∨ arch = "x86_64") ∧
    files entry = (l1 ++ vf :: l2)%list ∧
    triplet vf = arch +:+ "-linux-gnu" ∧
    Forall (fun x => triplet x ≠ arch +:+ "-linux-gnu") l1 ∧
    "https://host/julia-1.9.0-linux-x86_64.tar.gz" = url vf ∧ "1.9.0" = version vf.
Proof.
  apply (get_latest_returned example_world
           "https://host/julia-1.9.0-linux-x86_64.tar.gz" "1.9.0" example_world).
  vm_compute. reflexivity.
Defined.

Lemma stable_only_empty versions :
  (∀ k e, versions !! k = Some e → stable e = false) → stable_only versions = ∅.
Proof.
  intros H. apply map_eq. intros k. rewrite lookup_empty.
  destruct (stable_only versions !! k) as [e|] eqn:Hk; [|done].
  apply stable_only_lookup in Hk as [Hk Hs]. rewrite (H _ _ Hk) in Hs. discriminate.
Qed.

(** X2: when the manifest lists no stable version (it may be empty),
    [max] over the stable keys raises [ValueError]; [get_latest_julia_url]
    and the script end with it, in the world they started in. *)
Theorem no_stable_version_raises w versions :
  versions_json w = Returned versions →
  (∀ k e, versions !! k = Some e → stable e = false) →
  get_latest_julia_url w = (Raised ValueError, w) ∧
  main w = (Raised ValueError, w).
Proof.
  intros Hj Hall.
  assert (get_latest_julia_url w = (Raised ValueError, w)) as Hg.
  { unfold get_latest_julia_url, bind, requests_get_json, lift.
    rewrite Hj, (stable_only_empty _ Hall). unfold keys.
    by rewrite map_to_list_empty. }
  split; [done|]. unfold main. by apply bind_raised_first.
Qed.

Lemma no_stable_version_raises_witness :
  get_latest_julia_url (with_versions candidates_only example_world)
  = (Raised ValueError, with_versions candidates_only example_world) ∧
  main (with_versions candidates_only example_world)
  = (Raised ValueError, with_versions candidates_only example_world).
Proof.
  apply (no_stable_version_raises _ candidates_only); [reflexivity|].
  intros k e Hk. unfold candidates_only in Hk.
  apply lookup_insert_Some in Hk as [[_ <-]|[_ Hk]]; [reflexivity|].
  apply lookup_insert_Some in Hk as [[_ <-]|[_ Hk]]; [reflexivity|].
  rewrite lookup_empty in Hk. discriminate Hk.
Defined.

Lemma get_latest_outcome w versions :
  versions_json w = Returned versions →
  fst (get_latest_julia_url w)
  = match py_max (keys (stable_only versions)) with
    | Raised e => Raised e
    | Returned latest =>
      match getitem (stable_only versions) latest with
      | Raised e => Raised e
      | Returned entry => pick_file (machine w) (files entry)
      end
    end.
Proof.
  intros Hj. unfold get_latest_julia_url, bind, requests_get_json, lift,
    platform_machine, ret, pick_file.
  rewrite Hj. destruct (py_max _) as [latest|]; [|done].
  destruct (getitem _ latest) as [entry|]; [|done].
  destruct (unify_aarch64 _); [|done]. by destruct (first _).
Qed.

(** X3: an entry that is not stable is never looked at: adding one to the
    manifest, or changing one, under a key that holds no stable entry,
    leaves the outcome of [get_latest_julia_url] as it was, however the key
    compares with the others. *)
Theorem unstable_entries_ignored w versions k e :
  versions_json w = Returned versions →
  stable e = false →
  (∀ e0, versions !! k = Some e0 → stable e0 = false) →
  fst (get_latest_julia_url (with_versions (<[k := e]> versions) w))
  = fst (get_latest_julia_url w).
Proof.
  intros Hj He Hk.
  rewrite (get_latest_outcome _ (<[k := e]> versions)) by done.
  rewrite (get_latest_outcome w versions Hj). simpl machine.
  assert (stable_only (<[k := e]> versions) = stable_only versions) as ->; [|done].
  apply map_eq. intros i. apply option_eq. intros x.
  rewrite !stable_only_lookup. destruct (decide (k = i)) as [->|Hne].
  - rewrite lookup_insert_eq. split.
    + intros [[= <-] Hs]. congruence.
    + intros [Hi Hs]. rewrite (Hk _ Hi) in Hs. discriminate.
  - by rewrite lookup_insert_ne.
Qed.

Lemma unstable_entries_ignored_witness :
  fst (get_latest_julia_url
         (with_versions (<["2.0.0-alpha" := VersionInfo false []]> example_versions)
            example_world))
  = fst (get_latest_julia_url example_world).
Proof.
  apply (unstable_entries_ignored example_world example_versions "2.0.0-alpha"
           (VersionInfo false [])).
  - reflexivity.
  - reflexivity.
  - intros e0 H. vm_compute in H. discriminate H.
Defined.

(** X4: of several files of the latest stable entry that carry the triplet
    of the machine, the first in list order is the one returned; what
    follows it in the list plays no part. *)
Theorem first_matching_file_selected w versions latest entry arch vf l1 l2 :
  versions_json w = Returned versions →
  greatest_stable versions latest →
  versions !! latest = Some entry →
  unify_aarch64 (machine w) = Returned arch →
  files entry = (l1 ++ vf :: l2)%list →
  triplet vf = arch +:+ "-linux-gnu" →
  Forall (fun x => triplet x ≠ arch +:+ "-linux-gnu") l1 →
  get_latest_julia_url w = (Returned (url vf, version vf), w).
Proof.
  intros Hj Hg Hv Hu Hfl Ht Hall.
  rewrite (get_latest_unfold w versions latest entry Hj Hg Hv).
  unfold pick_file. rewrite Hu.
  by rewrite (proj2 (matching_first_spec (arch +:+ "-linux-gnu") (files entry) vf)
                (ex_intro _ l1 (ex_intro _ l2 (conj Hfl (conj Ht Hall))))).
Qed.

Lemma first_matching_file_selected_witness :
  get_latest_julia_url (with_versions mirror_versions example_world)
  = (Returned ("https://host/julia-1.9.0-linux-x86_64.tar.gz", "1.9.0"),
     with_versions mirror_versions example_world).
Proof.
  apply (first_matching_file_selected (with_versions mirror_versions example_world)
           mirror_versions "1.9.0"
           (VersionInfo true
              [FileInfo "x86_64-linux-musl" "https://host/julia-1.9.0-musl-x86_64.tar.gz" "1.9.0";
               FileInfo "x86_64-linux-gnu" "https://host/julia-1.9.0-linux-x86_64.tar.gz" "1.9.0";
               FileInfo "x86_64-linux-gnu" "https://mirror/julia-1.9.0-linux-x86_64.zip"
                 "1.9.0-mirror"])
           "x86_64"
           (FileInfo "x86_64-linux-gnu" "https://host/julia-1.9.0-linux-x86_64.tar.gz" "1.9.0")
           [FileInfo "x86_64-linux-musl" "https://host/julia-1.9.0-musl-x86_64.tar.gz" "1.9.0"]
           [FileInfo "x86_64-linux-gnu" "https://mirror/julia-1.9.0-linux-x86_64.zip"
              "1.9.0-mirror"]).
  - reflexivity.
  - apply latest_is_greatest. vm_compute. reflexivity.
  - reflexivity.
  - reflexivity.
  - reflexivity.
  - reflexivity.
  - repeat constructor. discriminate.
Defined.

(** ** Downloading *)

(** X6: after [download_julia] returns, [/tmp/julia.tar.gz] reads back as
    exactly what curl fetched for the url, whatever was at that path before,
    and downloading the same url again succeeds and changes nothing. *)
Theorem download_julia_round_trip u w w1 :
  download_julia u w = (Returned tt, w1) →
  ∃ d, remote w u = Some d ∧
       read_fs (fs w1) tmp_julia = Some d ∧
       download_julia u w1 = (Returned tt, w1).
Proof.
  intros (d & r & Hd & Hr & Hnd & ->)%download_julia_returned.
  pose proof (resolve_not_link _ _ _ _ Hr) as Hnl.
  exists d. split; [done|]. simpl fs. split.
  - apply (read_after_write tmp_julia d (fs w)).
    apply write_fs_returned. by exists r.
  - apply download_julia_returned. exists d, r. cbn [fs set_fs remote].
    rewrite resolve_insert_file by done. rewrite lookup_insert_eq, insert_insert_eq.
    by repeat split.
Qed.

Lemma download_julia_round_trip_witness :
  ∃ d, remote example_world "https://host/julia-1.9.0-linux-x86_64.tar.gz" = Some d ∧
       read_fs (fs example_downloaded) tmp_julia = Some d ∧
       download_julia "https://host/julia-1.9.0-linux-x86_64.tar.gz" example_downloaded
       = (Returned tt, example_downloaded).
Proof.
  apply (download_julia_round_trip "https://host/julia-1.9.0-linux-x86_64.tar.gz"
           example_world example_downloaded).
  vm_compute. reflexivity.
Defined.

Lemma unpack_fs_not_archive tar dir (f : gmap string node) r s :
  resolve SYMLOOP_MAX f tar = Some r → f !! r = Some (File (Text s)) →
  unpack_fs tar dir f = Raised (ReadError tar).
Proof. intros Hr Hf. unfold unpack_fs. by rewrite Hr, Hf. Qed.

(** X7: curl is run without [--fail], so a body that is no archive (an
    error page of the host) is a successful download; the script then stops
    at [shutil.unpack_archive] with [ReadError], and the file it downloaded
    is still at [/tmp/julia.tar.gz]: line 97 has not run. *)
Theorem error_page_is_left_behind w u v s w1 :
  get_latest_julia_url w = (Returned (u, v), w) →
  remote w u = Some (Text s) →
  download_julia u w = (Returned tt, w1) →
  is_Some (environ w !! "CONDA_DIR") →
  main w = (Raised (ReadError tmp_julia), w1) ∧
  read_fs (fs w1) tmp_julia = Some (Text s).
Proof.
  intros Hg Hrem Hd [cd Hcd].
  destruct (main_after_download _ _ _ _ Hg Hd) as [-> He].
  destruct (download_julia_round_trip _ _ _ Hd) as (d & Hrem' & Hread & _).
  rewrite Hrem in Hrem'. injection Hrem' as <-. split; [|done].
  rewrite (prepare_julia_unfold _ _ _ _ cd) by by rewrite He.
  cbv zeta. apply bind_raised_first. unfold unpack_julia. apply bind_raised_first.
  unfold shutil_unpack_archive. rewrite update_run_last.
  unfold read_fs, stat in Hread.
  destruct (resolve SYMLOOP_MAX (fs w1) tmp_julia) as [r|] eqn:Hr; [|done].
  destruct (fs w1 !! r) as [[d| |]|] eqn:Hf; try done.
  injection Hread as ->. by rewrite (unpack_fs_not_archive _ _ _ r s Hr Hf).
Qed.

Lemma error_page_is_left_behind_witness :
  main error_page_world
  = (Raised (ReadError tmp_julia),
     set_fs (<[tmp_julia := File (Text "<html>404 Not Found</html>")]> (fs example_world))
       error_page_world) ∧
  read_fs
    (fs (set_fs (<[tmp_julia := File (Text "<html>404 Not Found</html>")]> (fs example_world))
           error_page_world))
    tmp_julia
  = Some (Text "<html>404 Not Found</html>").
Proof.
  apply (error_page_is_left_behind error_page_world
           "https://host/julia-1.9.0-linux-x86_64.tar.gz" "1.9.0").
  - vm_compute. reflexivity.
  - reflexivity.
  - vm_compute. reflexivity.
  - exists "/opt/conda". reflexivity.
Defined.

(** ** Unpacking *)

(** X8: without a file at [/tmp/julia.tar.gz], [prepare_julia] raises
    [FileNotFoundError] at line 96 and leaves the world as it was: it relies
    on [download_julia] having run, and, since it unlinks the archive, it
    cannot be run a second time on one download. *)
Theorem prepare_julia_needs_archive v c j w :
  is_Some (environ w !! "CONDA_DIR") →
  fs w !! tmp_julia = None →
  prepare_julia v c j w = (Raised (FileNotFoundError tmp_julia), w).
Proof.
  intros [cd Hcd] Habs.
  rewrite (prepare_julia_unfold _ _ _ _ cd Hcd). cbv zeta.
  apply bind_raised_first. unfold unpack_julia. apply bind_raised_first.
  unfold shutil_unpack_archive. rewrite update_run_last.
  assert (unpack_fs tmp_julia (os_path_join (os_path_join cd "envs") c) (fs w)
          = Raised (FileNotFoundError tmp_julia)) as ->; [|done].
  unfold unpack_fs. simpl resolve. by rewrite Habs, Habs.
Qed.

Lemma prepare_julia_needs_archive_witness :
  prepare_julia "1.9.0" "julia-env" "jupyter" example_world
  = (Raised (FileNotFoundError tmp_julia), example_world).
Proof.
  apply prepare_julia_needs_archive.
  - exists "/opt/conda". reflexivity.
  - reflexivity.
Defined.

(** X9: when the archive does not unpack to a [julia-VERSION] entry for the
    version the manifest gave, [mv] fails and [prepare_julia] raises
    [CalledProcessError]; the world it ends in has the unpacked files and
    no archive: nothing is rolled back. *)
Theorem version_mismatch_fails_at_mv v c j w cd fx fr :
  environ w !! "CONDA_DIR" = Some cd →
  let conda_env_path := os_path_join (os_path_join cd "envs") c in
  unpack_fs tmp_julia conda_env_path (fs w) = Returned fx →
  remove_fs tmp_julia fx = Returned fr →
  fr !! os_path_join conda_env_path ("julia-" +:+ v) = None →
  prepare_julia v c j w = (Raised (CalledProcessError "mv"), set_fs fr w) ∧
  fr !! tmp_julia = None.
Proof.
  intros Hcd cep Hx Hr Hsrc. split.
  - rewrite (prepare_julia_unfold _ _ _ _ cd Hcd). cbv zeta. fold cep.
    apply bind_raised_first.
    unfold unpack_julia, shutil_unpack_archive, os_remove, mv.
    rewrite update_run, Hx, update_run. simpl fs. rewrite Hr, update_run_last.
    simpl fs. unfold mv_fs. by rewrite Hsrc.
  - apply remove_fs_returned in Hr as [-> _]. apply lookup_delete_eq.
Qed.

Lemma version_mismatch_fails_at_mv_witness :
  prepare_julia "1.9.1" "julia-env" "jupyter" example_downloaded
  = (Raised (CalledProcessError "mv"),
     set_fs (delete tmp_julia example_unpacked) example_downloaded) ∧
  delete tmp_julia example_unpacked !! tmp_julia = None.
Proof.
  apply (version_mismatch_fails_at_mv "1.9.1" "julia-env" "jupyter" example_downloaded
           "/opt/conda" example_unpacked (delete tmp_julia example_unpacked)).
  - reflexivity.
  - vm_compute. exact eq_refl.
  - vm_compute. exact eq_refl.
  - vm_compute. exact eq_refl.
Defined.

(** X10: with a directory at the [julia] path when [mv] runs, a successful
    unpacking step leaves the tree one level down: every entry that was at
    or below [julia-VERSION] is found at the same relative path below
    [julia/julia-VERSION]. *)
Theorem unpack_nests_under_existing_directory v cep w w1 fx :
  unpack_fs tmp_julia cep (fs w) = Returned fx →
  isdir (delete tmp_julia fx) (os_path_join cep "julia") = true →
  unpack_julia v cep (os_path_join cep "julia") w = (Returned tt, w1) →
  ∀ s, below s →
    fs w1 !! (os_path_join (os_path_join cep "julia")
                (basename (os_path_join cep ("julia-" +:+ v))) +:+ s)
    = delete tmp_julia fx !! (os_path_join cep ("julia-" +:+ v) +:+ s).
Proof.
  intros Hx Hdir (fx' & fr & fm & Hx' & Hr & Hm & ->)%unpack_julia_run s Hs.
  rewrite Hx in Hx'. injection Hx' as <-.
  apply remove_fs_returned in Hr as [-> _].
  apply mv_fs_returned in Hm as (-> & _). simpl fs.
  unfold mv_dest. rewrite Hdir. by apply rename_lookup_moved.
Qed.

Lemma unpack_nests_under_existing_directory_witness :
  fs (snd (unpack_julia "1.9.0" "/opt/conda/envs/julia-env"
             (os_path_join "/opt/conda/envs/julia-env" "julia") reinstall_world))
    !! (os_path_join (os_path_join "/opt/conda/envs/julia-env" "julia")
          (basename (os_path_join "/opt/conda/envs/julia-env" ("julia-" +:+ "1.9.0")))
        +:+ "/bin/julia")
  = delete tmp_julia reinstall_unpacked
      !! (os_path_join "/opt/conda/envs/julia-env" ("julia-" +:+ "1.9.0") +:+ "/bin/julia").
Proof.
  apply (unpack_nests_under_existing_directory "1.9.0" "/opt/conda/envs/julia-env"
           reinstall_world
           (snd (unpack_julia "1.9.0" "/opt/conda/envs/julia-env"
                   (os_path_join "/opt/conda/envs/julia-env" "julia") reinstall_world))
           reinstall_unpacked).
  - vm_compute. exact eq_refl.
  - vm_compute. exact eq_refl.
  - vm_compute. exact eq_refl.
  - right. reflexivity.
Defined.

(** ** Replacing the links *)

Lemma replace_link_relink t p w :
  replace_link t p w
  = match relink_fs t p (fs w) with
    | Returned f' => (Returned tt, set_fs f' w)
    | Raised e => (Raised e, w)
    end.
Proof.
  unfold replace_link, relink_fs, bind, ret. rewrite os_path_exists_run.
  destruct (exists_fs (fs w) p) eqn:He.
  - unfold os_remove, os_symlink, update_fs.
    destruct (remove_fs p (fs w)) as [f1|e] eqn:Hr; [|done]. simpl fs.
    destruct (symlink_fs t p f1) as [f2|e] eqn:Hs; [done|].
    exfalso. unfold remove_fs in Hr. unfold symlink_fs in Hs.
    destruct (fs w !! p) as [[| |]|]; try discriminate; injection Hr as <-;
      by rewrite lookup_delete_eq in Hs.
  - unfold os_symlink, update_fs. by destruct (symlink_fs t p (fs w)).
Qed.

(** The linking step is [os.makedirs] and [replace_link], twice. *)
Lemma link_julia_replaces cep jep j w :
  link_julia cep jep j w
  = (let julia_bin_path := os_path_join (os_path_join jep "bin") "julia" in
     os_makedirs (os_path_join cep "bin") ;;;
     replace_link julia_bin_path (os_path_join (os_path_join cep "bin") "julia") ;;;
     conda_dir <- os_environ "CONDA_DIR" ;;
     let jupyter_env_bin_path :=
       os_path_join (os_path_join (os_path_join conda_dir "envs") j) "bin" in
     os_makedirs jupyter_env_bin_path ;;;
     replace_link julia_bin_path (os_path_join jupyter_env_bin_path "julia")) w.
Proof.
  unfold link_julia, replace_link. cbv zeta. unfold bind.
  destruct (os_makedirs _ w) as [[[]|] w1]; [|done].
  destruct (os_path_exists _ w1) as [[there|] w2]; [|done].
  destruct (if there then _ else _) as [[[]|] w3]; [|done].
  by destruct (os_symlink _ _ w3) as [[[]|] w4].
Qed.

(** X11: what lines 115-117 do, by what is at the link path.  Nothing, a
    regular file, or a link that resolves: the path ends up holding the new
    link and nothing else changes.  A directory: [os.remove] raises
    [IsADirectoryError].  A dangling link: [os.symlink] raises
    [FileExistsError].  In both failures the world is left as it was. *)
Theorem replace_link_outcome t p w :
  replace_link t p w =
  match fs w !! p with
  | Some Dir => (Raised (IsADirectoryError p), w)
  | Some (Symlink _) =>
    if exists_fs (fs w) p
    then (Returned tt, set_fs (<[p := Symlink t]> (fs w)) w)
    else (Raised (FileExistsError p), w)
  | _ => (Returned tt, set_fs (<[p := Symlink t]> (fs w)) w)
  end.
Proof.
  rewrite replace_link_relink. unfold relink_fs, remove_fs, symlink_fs, exists_fs, stat.
  destruct (fs w !! p) as [[d| |t']|] eqn:Hp.
  - simpl resolve. rewrite !Hp, lookup_delete_eq. by rewrite insert_delete_eq.
  - simpl resolve. by rewrite !Hp.
  - destruct (match resolve SYMLOOP_MAX (fs w) p with
              | Some r => fs w !! r
              | None => None
              end) as [x|].
    + rewrite lookup_delete_eq. by rewrite insert_delete_eq.
    + by rewrite Hp.
  - simpl resolve. by rewrite !Hp.
Qed.

(** X12: once the two [bin] directories are directories and both links
    resolve, the linking step can be run again: it succeeds and leaves the
    world exactly as it was. *)
Theorem link_step_idempotent cep jep j w w1 cd :
  environ w !! "CONDA_DIR" = Some cd →
  link_julia cep jep j w = (Returned tt, w1) →
  let bin := os_path_join cep "bin" in
  let jupyter_bin := os_path_join (os_path_join (os_path_join cd "envs") j) "bin" in
  isdir (fs w1) bin = true →
  Forall (fun q => isdir (fs w1) q = true) (ancestors bin) →
  isdir (fs w1) jupyter_bin = true →
  Forall (fun q => isdir (fs w1) q = true) (ancestors jupyter_bin) →
  exists_fs (fs w1) (os_path_join bin "julia") = true →
  exists_fs (fs w1) (os_path_join jupyter_bin "julia") = true →
  link_julia cep jep j w1 = (Returned tt, w1) ∧
  (link_julia cep jep j ;;; link_julia cep jep j) w = link_julia cep jep j w.
Proof.
  intros Hcd Hrun bin jbin Hd1 Ha1 Hd2 Ha2 He1 He2.
  pose proof (link_julia_rerun cep jep j w w1 cd Hcd Hrun Hd1 Ha1 Hd2 Ha2 He1 He2) as H.
  split; [done|]. by rewrite bind_run, Hrun, H.
Qed.

Lemma link_step_idempotent_witness :
  link_julia "/opt/conda/envs/julia-env" "/opt/conda/envs/julia-env/julia" "jupyter"
    example_linked_world
  = (Returned tt, example_linked_world) ∧
  (link_julia "/opt/conda/envs/julia-env" "/opt/conda/envs/julia-env/julia" "jupyter" ;;;
   link_julia "/opt/conda/envs/julia-env" "/opt/conda/envs/julia-env/julia" "jupyter")
    example_unpacked_world
  = link_julia "/opt/conda/envs/julia-env" "/opt/conda/envs/julia-env/julia" "jupyter"
      example_unpacked_world.
Proof.
  apply (link_step_idempotent "/opt/conda/envs/julia-env" "/opt/conda/envs/julia-env/julia"
           "jupyter" example_unpacked_world example_linked_world "/opt/conda").
  - reflexivity.
  - vm_compute. exact eq_refl.
  - vm_compute. exact eq_refl.
  - repeat constructor; vm_compute; exact eq_refl.
  - vm_compute. exact eq_refl.
  - repeat constructor; vm_compute; exact eq_refl.
  - vm_compute. exact eq_refl.
  - vm_compute. exact eq_refl.
Defined.

(** ** The directories of a finished run *)

(** X13: after every successful run of [prepare_julia], [JULIA_PKGDIR] is
    set and names a directory, and so does the startup directory
    [julia/etc/julia] of the conda environment. *)
Theorem directories_exist_after_run v c j w w' cd :
  environ w !! "CONDA_DIR" = Some cd →
  prepare_julia v c j w = (Returned tt, w') →
  let conda_env_path := os_path_join (os_path_join cd "envs") c in
  let julia_env_path := os_path_join conda_env_path "julia" in
  (∃ pkg, environ w !! "JULIA_PKGDIR" = Some pkg ∧ isdir (fs w') pkg = true) ∧
  isdir (fs w') (os_path_join (os_path_join julia_env_path "etc") "julia") = true.
Proof.
  intros Hcd Hrun cep jep.
  destruct (prepare_julia_returned _ _ _ _ _ _ Hcd Hrun)
    as (w1 & w2 & pkg & f3 & _ & _ & Hpkg & H3 & H4 & _).
  fold cep in H4. fold jep in H4.
  apply write_startup_run in H4 as (fa & fb & Ha & Hb & ->). simpl fs in *.
  apply write_fs_returned in Hb as (r & Hr & Hnd & ->).
  pose proof (resolve_not_link _ _ _ _ Hr) as Hnl.
  apply makedirs_fs_spec in H3 as (_ & Hd3 & _).
  apply makedirs_fs_spec in Ha as (Hadd & Hda & _).
  split.
  - exists pkg. split; [done|]. apply isdir_insert_file; [done..|].
    by eapply adds_dirs_isdir.
  - by apply isdir_insert_file.
Qed.

Lemma directories_exist_after_run_witness :
  (∃ pkg, environ example_downloaded !! "JULIA_PKGDIR" = Some pkg ∧
          isdir (fs (snd (prepare_julia "1.9.0" "julia-env" "jupyter" example_downloaded)))
            pkg = true) ∧
  isdir (fs (snd (prepare_julia "1.9.0" "julia-env" "jupyter" example_downloaded)))
    (os_path_join
       (os_path_join
          (os_path_join (os_path_join (os_path_join "/opt/conda" "envs") "julia-env") "julia")
          "etc") "julia")
  = true.
Proof.
  apply (directories_exist_after_run "1.9.0" "julia-env" "jupyter" example_downloaded
           (snd (prepare_julia "1.9.0" "julia-env" "jupyter" example_downloaded))
           "/opt/conda").
  - reflexivity.
  - vm_compute. exact eq_refl.
Defined.

(** ** Machine names *)

Lemma get_latest_outcome_any w :
  fst (get_latest_julia_url w)
  = match versions_json w with
    | Raised e => Raised e
    | Returned versions =>
      match py_max (keys (stable_only versions)) with
      | Raised e => Raised e
      | Returned latest =>
        match getitem (stable_only versions) latest with
        | Raised e => Raised e
        | Returned entry => pick_file (machine w) (files entry)
        end
      end
    end.
Proof.
  destruct (versions_json w) as [versions|e] eqn:Hj.
  - by apply get_latest_outcome.
  - unfold get_latest_julia_url, bind, requests_get_json. by rewrite Hj.
Qed.

(** X14: on a machine that reports "arm64" the script selects what it
    selects on one that reports "aarch64": the same build, or the same
    exception. *)
Theorem arm64_selects_aarch64_build w :
  fst (get_latest_julia_url (with_machine "arm64" w))
  = fst (get_latest_julia_url (with_machine "aarch64" w)).
Proof.
  rewrite !get_latest_outcome_any. simpl versions_json. simpl machine.
  destruct (versions_json w) as [versions|]; [|done].
  destruct (py_max _) as [latest|]; [|done].
  by destruct (getitem _ latest).
Qed.
